(** * GA4GH reference implementation: the HTTP client and the simulator tests

    A shallow embedding of [ga4gh/client.py] (class [HttpClient]) and of the
    properties exercised by [tests/unit/test_simulator.py].

    Python objects are attribute dictionaries ([gmap string pyval]); methods
    that mutate [self], the request object, the network or the standard
    output are computations in a state-and-exception monad over [World];
    the two generator methods are step functions on their suspended frame. *)

From Stdlib Require Import ZArith List String Ascii DecimalString Lia.
From Stdlib Require Import QArith Qcanon.
From stdpp Require Import base option gmap strings list numbers.

Set Warnings "-register-all".
Open Scope Z_scope.

(** ** Python values *)

(** The values the client touches: [None], text, integers, lists and
    objects (attribute dictionaries). *)
Inductive pyval :=
| PyNone
| PyStr (s : string)
| PyInt (z : Z)
| PyList (l : list pyval)
| PyObj (attrs : gmap string pyval).

Abbreviation PyObject := (gmap string pyval).

(** [x is not None] *)
Definition is_not_None (v : pyval) : bool :=
  match v with PyNone => false | _ => true end.

(** [hasattr(o, a)] and [getattr(o, a)] on an attribute dictionary. *)
Definition hasattr (o : PyObject) (a : string) : bool :=
  match o !! a with Some _ => true | None => false end.

(** What a [for] loop iterates over: the items of a list, the one-letter
    strings of a text; nothing else here is iterable. *)
Fixpoint letters (s : string) : list pyval :=
  match s with
  | EmptyString => []
  | String c s' => PyStr (String c EmptyString) :: letters s'
  end.

Definition py_iter (v : pyval) : option (list pyval) :=
  match v with
  | PyList l => Some l
  | PyStr s => Some (letters s)
  | _ => None
  end.

(** Exceptions. [Exception msg] is the one [_checkStatus] raises;
    [RequestException] stands for what [requests.request] itself raises
    (connection error, timeout, a URL without a scheme). *)
Inductive exn :=
| Exception (msg : string)
| ValueError
| KeyError (k : string)
| IndexError
| AttributeError (a : string)
| TypeError
| ProtocolError (why : string)
| RequestException (why : string).

Inductive result (A : Type) :=
| Ok (a : A)
| Raise (e : exn).
Arguments Ok {A} a.
Arguments Raise {A} e.

(** The value a call hands back to its caller, if it returns at all. *)
Definition returned {A} (r : result A) : option A :=
  match r with Ok a => Some a | Raise _ => None end.

Definition raised {A} (r : result A) : option exn :=
  match r with Ok _ => None | Raise e => Some e end.

Definition result_map {A B} (f : A -> B) (r : result A) : result B :=
  match r with Ok a => Ok (f a) | Raise e => Raise e end.

(** ** Text *)

(** [response.text] is decoded text: a sequence of code points, whose
    [len] counts code points.  The body as it travelled is [content], a
    sequence of bytes. *)
Definition unicode := list N.

Definition u (s : string) : unicode :=
  map N_of_ascii (list_ascii_of_string s).

Definition len (t : unicode) : Z := Z.of_nat (length t).

Definition byte_of_N (n : N) : Byte.byte :=
  match Byte.of_N (n mod 256) with Some b => b | None => Byte.x00 end.

(** UTF-8 encoding of one code point. *)
Definition utf8_encode_point (c : N) : list Byte.byte :=
  if (c <? 128)%N then [byte_of_N c]
  else if (c <? 2048)%N then
    [byte_of_N (N.lor 192 (N.shiftr c 6));
     byte_of_N (N.lor 128 (N.land c 63))]
  else if (c <? 65536)%N then
    [byte_of_N (N.lor 224 (N.shiftr c 12));
     byte_of_N (N.lor 128 (N.land (N.shiftr c 6) 63));
     byte_of_N (N.lor 128 (N.land c 63))]
  else
    [byte_of_N (N.lor 240 (N.shiftr c 18));
     byte_of_N (N.lor 128 (N.land (N.shiftr c 12) 63));
     byte_of_N (N.lor 128 (N.land (N.shiftr c 6) 63));
     byte_of_N (N.lor 128 (N.land c 63))].

Definition utf8_encode (t : unicode) : list Byte.byte :=
  flat_map utf8_encode_point t.

(** ** posixpath.join and str.format *)

Definition startswith_slash (s : string) : bool :=
  match s with String c _ => Ascii.eqb c "/" | EmptyString => false end.

Fixpoint endswith_slash (s : string) : bool :=
  match s with
  | EmptyString => false
  | String c EmptyString => Ascii.eqb c "/"
  | String _ s' => endswith_slash s'
  end.

(** [posixpath.join(a, b)]: an absolute [b] replaces [a]; otherwise the
    two are glued with exactly one separator between them. *)
Definition posixpath_join (a b : string) : string :=
  if startswith_slash b then b
  else if String.eqb a "" || endswith_slash a then a +:+ b
  else a +:+ "/" +:+ b.

Fixpoint assoc (k : string) (kw : list (string * string)) : option string :=
  match kw with
  | [] => None
  | (k', v) :: kw' => if String.eqb k k' then Some v else assoc k kw'
  end.

(** A replacement field that is empty or a number stands for a positional
    argument. *)
Fixpoint all_digits (s : string) : bool :=
  match s with
  | EmptyString => true
  | String c s' =>
      (48 <=? nat_of_ascii c)%nat && (nat_of_ascii c <=? 57)%nat
      && all_digits s'
  end.

(** [template.format] with keyword arguments [kw] and no positional ones,
    for replacement fields that are plain names.  A doubled brace is a
    literal brace, a lone closing brace or an unclosed field is a
    [ValueError], a positional field is an [IndexError] (there are no
    positional arguments), a name that is not a keyword is a [KeyError].
    Conversions, format specifications and attribute or index access
    inside a field are not modelled: such a field is looked up under its
    whole text and so raises [KeyError].  [field] holds the text of the
    replacement field being read, if any. *)
Fixpoint format_go (kw : list (string * string)) (field : option string)
    (s : string) : result string :=
  match s with
  | EmptyString =>
      match field with None => Ok EmptyString | Some _ => Raise ValueError end
  | String c rest =>
      match field with
      | Some name =>
          if Ascii.eqb c "}" then
            if all_digits name then Raise IndexError
            else
              match assoc name kw with
              | Some v =>
                  result_map (String.append v) (format_go kw None rest)
              | None => Raise (KeyError name)
              end
          else format_go kw (Some (name +:+ String c EmptyString)) rest
      | None =>
          if Ascii.eqb c "{" then
            match rest with
            | String c' rest' =>
                if Ascii.eqb c' "{"
                then result_map (String "{") (format_go kw None rest')
                else format_go kw (Some EmptyString) rest
            | EmptyString => Raise ValueError
            end
          else if Ascii.eqb c "}" then
            match rest with
            | String c' rest' =>
                if Ascii.eqb c' "}"
                then result_map (String "}") (format_go kw None rest')
                else Raise ValueError
            | EmptyString => Raise ValueError
            end
          else result_map (String c) (format_go kw None rest)
      end
  end.

Definition str_format (template : string) (kw : list (string * string))
    : result string :=
  format_go kw None template.

(** A text without braces, on which [str.format] is the identity. *)
Fixpoint nobrace (s : string) : bool :=
  match s with
  | EmptyString => true
  | String c s' =>
      negb (Ascii.eqb c "{") && negb (Ascii.eqb c "}") && nobrace s'
  end.

(** [str(n)] for an integer. *)
Definition str_of_Z (z : Z) : string := NilZero.string_of_int (Z.to_int z).

(** ** HTTP *)

(** The arguments of one [requests.request] call. *)
Record HttpRequest := {
  method : string;
  req_url : string;
  params : gmap string pyval;
  data : option unicode;
  headers : gmap string string
}.

Record HttpResponse := {
  status_code : Z;
  url : string;
  content : list Byte.byte;
  text : unicode
}.

(** [requests.codes.ok] *)
Definition requests_codes_ok : Z := 200.

Definition is_2xx (status : Z) : bool := (200 <=? status) && (status <? 300).

(** ** The imported modules

    [requests], [json] and [ga4gh.protocol] are not part of the sources;
    the client is written against these operations of theirs.  The server
    is any deterministic machine answering one request at a time; a call
    of [requests.request] returns its response or raises (no connection, a
    timeout, a URL it cannot use). *)
Class Library := {
  Server : Type;
  requests_request : Server -> HttpRequest -> result HttpResponse * Server;
  Json : Type;
  json_loads : unicode -> option Json;
  json_dumps : Json -> unicode;
  toJsonString : PyObject -> unicode;
  toJsonDict : PyObject -> gmap string pyval
}.

(** A response class of [ga4gh.protocol], known to the client only
    through its [fromJsonString] class method. *)
Record ProtocolClass `{Library} := {
  fromJsonDict : Json -> result PyObject
}.

(** Modelled from the spec: [fromJsonString] belongs to [ga4gh.protocol],
    which is missing.  The body must be valid JSON matching the schema: the
    text is parsed as JSON, a text that is not JSON fails, and the parsed
    value is then fitted to the schema of the class, which may fail too. *)
Definition fromJsonString `{Library} (cls : ProtocolClass) (s : unicode)
    : result PyObject :=
  match json_loads s with
  | None => Raise ValueError
  | Some j => fromJsonDict cls j
  end.

(** ** The client object and the world it runs in *)

Record HttpClient := {
  _urlPrefix : string;
  _debugLevel : Z;
  _bytesRead : Z;
  _workarounds : list string;
  _key : pyval
}.

(** [HttpClient.__init__] *)
Definition HttpClient_init (urlPrefix : string) (debugLevel : Z)
    (workarounds : list string) (key : pyval) : HttpClient :=
  {| _urlPrefix := urlPrefix; _debugLevel := debugLevel; _bytesRead := 0;
     _workarounds := workarounds; _key := key |}.

Definition workaroundGoogle : string := "google".

(** [getBytesRead] *)
Definition getBytesRead (self : HttpClient) : Z := _bytesRead self.

(** [_usingWorkaroundsFor]: [workaround in self._workarounds] *)
Definition _usingWorkaroundsFor (self : HttpClient) (workaround : string)
    : bool :=
  existsb (String.eqb workaround) (_workarounds self).

(** [_getAuth] *)
Definition _getAuth (self : HttpClient) : gmap string pyval :=
  if _usingWorkaroundsFor self workaroundGoogle
  then {[ "key" := _key self ]}
  else ∅.

Definition set_bytesRead (self : HttpClient) (n : Z) : HttpClient :=
  {| _urlPrefix := _urlPrefix self; _debugLevel := _debugLevel self;
     _bytesRead := n; _workarounds := _workarounds self;
     _key := _key self |}.

Definition set_debugLevel (self : HttpClient) (d : Z) : HttpClient :=
  {| _urlPrefix := _urlPrefix self; _debugLevel := d;
     _bytesRead := _bytesRead self; _workarounds := _workarounds self;
     _key := _key self |}.

(** What an observer of a run sees, in order: the calls of
    [requests.request] with their arguments, the responses that come back
    (none when the call raises), the values a generator yields to its
    consumer and the exception that ends it. *)
Inductive event :=
| Sent (r : HttpRequest)
| Received (r : HttpResponse)
| Yielded (v : pyval)
| Raised (e : exn).

Section Client.
Context `{!Library}.

(** The mutable state a client method can reach: the client itself, the
    request object its caller passed in (shared with the caller, and
    updated in place by [_updateNotDone]), the server, the observable
    history and what was printed. *)
Record World := {
  self : HttpClient;
  protocolRequest : PyObject;
  net : Server;
  history : list event;
  stdout : list unicode
}.

Definition with_self (w : World) (c : HttpClient) : World :=
  {| self := c; protocolRequest := protocolRequest w; net := net w;
     history := history w; stdout := stdout w |}.

Definition with_protocolRequest (w : World) (r : PyObject) : World :=
  {| self := self w; protocolRequest := r; net := net w;
     history := history w; stdout := stdout w |}.

Definition with_net (w : World) (s : Server) : World :=
  {| self := self w; protocolRequest := protocolRequest w; net := s;
     history := history w; stdout := stdout w |}.

Definition log (w : World) (es : list event) : World :=
  {| self := self w; protocolRequest := protocolRequest w; net := net w;
     history := history w ++ es; stdout := stdout w |}.

Definition with_stdout (w : World) (out : list unicode) : World :=
  {| self := self w; protocolRequest := protocolRequest w; net := net w;
     history := history w; stdout := out |}.

(** Computations that may change the world and may raise.  A raised
    exception keeps the changes made before it. *)
Definition M (A : Type) : Type := World -> result A * World.

#[export] Instance M_ret : MRet M := fun A a w => (Ok a, w).

#[export] Instance M_bind : MBind M := fun A B f m w =>
  match m w with
  | (Ok a, w') => f a w'
  | (Raise e, w') => (Raise e, w')
  end.

Definition raise {A} (e : exn) : M A := fun w => (Raise e, w).

Definition lift {A} (r : result A) : M A := fun w => (r, w).

Definition get_self : M HttpClient := fun w => (Ok (self w), w).

Definition print (t : unicode) : M unit :=
  fun w => (Ok tt, with_stdout w (stdout w ++ [t])).

(** [requests.request(httpMethod, url, params=..., data=..., headers=...)] *)
Definition request (r : HttpRequest) : M HttpResponse := fun w =>
  match requests_request (net w) r with
  | (Ok response, s') =>
      (Ok response, log (with_net w s') [Sent r; Received response])
  | (Raise e, s') => (Raise e, log (with_net w s') [Sent r])
  end.

(** [_debugResponse] *)
Definition _debugResponse (jsonString : unicode) : M unit :=
  c ← get_self;
  if 1 <? _debugLevel c then
    print (u "json response:");;
    match json_loads jsonString with
    | Some j => print (json_dumps j)
    | None => raise ValueError
    end
  else mret tt.

Definition status_message (response : HttpResponse) : string :=
  "Url " +:+ url response +:+ " had status_code "
    +:+ str_of_Z (status_code response).

(** [_checkStatus] *)
Definition _checkStatus (response : HttpResponse) : M unit :=
  if negb (status_code response =? requests_codes_ok) then
    print (text response);;
    raise (Exception (status_message response))
  else mret tt.

(** [_updateBytesRead] *)
Definition _updateBytesRead (jsonString : unicode) : M unit := fun w =>
  (Ok tt,
   with_self w (set_bytesRead (self w) (_bytesRead (self w) + len jsonString))).

(** [_deserializeResponse] *)
Definition _deserializeResponse (response : HttpResponse)
    (protocolResponseClass : ProtocolClass) : M PyObject :=
  let jsonResponseString := text response in
  _updateBytesRead jsonResponseString;;
  _debugResponse jsonResponseString;;
  responseObject ← lift (fromJsonString protocolResponseClass
                           jsonResponseString);
  mret responseObject.

(** [_updateNotDone] *)
Definition _updateNotDone (responseObject : PyObject) : M bool := fun w =>
  match responseObject !! "nextPageToken" with
  | Some nextPageToken =>
      (Ok (is_not_None nextPageToken),
       with_protocolRequest w
         (<[ "pageToken" := nextPageToken ]> (protocolRequest w)))
  | None => (Ok false, w)
  end.

(** [_doRequest].  The default [httpParams] is an empty dictionary that
    is only read, so sharing it between calls is harmless. *)
Definition _doRequest (httpMethod : string) (url : string)
    (protocolResponseClass : ProtocolClass)
    (httpParams : gmap string pyval) (httpData : option unicode)
    : M PyObject :=
  let headers : gmap string string :=
    match httpData with
    | Some _ => {[ "Content-type" := "application/json" ]}
    | None => ∅
    end in
  c ← get_self;
  let params := httpParams ∪ _getAuth c in
  response ← request {| method := httpMethod; req_url := url;
                        params := params; data := httpData;
                        headers := headers |};
  _checkStatus response;;
  _deserializeResponse response protocolResponseClass.

(** [runGetRequest] *)
Definition runGetRequest (objectName : string)
    (protocolResponseClass : ProtocolClass) (id_ : string) : M PyObject :=
  let url := "{objectName}/{id}" in
  c ← get_self;
  fullUrl ← lift (str_format (posixpath_join (_urlPrefix c) url)
                    [("id", id_); ("objectName", objectName)]);
  _doRequest "GET" fullUrl protocolResponseClass ∅ None.

(** [<prefix>/<objectName>/<id>]: the prefix, one separator unless the
    prefix is empty or brings its own, the resource name, the identifier. *)
Definition resourceUrl (prefix objectName id_ : string) : string :=
  (if String.eqb prefix "" || endswith_slash prefix
   then prefix else prefix +:+ "/")
  +:+ objectName +:+ "/" +:+ id_.

(** [printJsonMessage] *)
Definition printJsonMessage (header : string) (jsonString : unicode)
    : M unit :=
  print (u ("json " +:+ header));;
  match json_loads jsonString with
  | Some j => print (json_dumps j)
  | None => raise ValueError
  end.

(** The prefix as [posixpath.join] leaves it in front of a relative
    path: with one separator added unless it is empty or ends in one. *)
Definition separated (prefix : string) : string :=
  if String.eqb prefix "" || endswith_slash prefix
  then prefix else prefix +:+ "/".

(** The request [_doRequest] hands to [requests.request]. *)
Definition requestOf (m : string) (fullUrl : string) (c : HttpClient)
    (p : gmap string pyval) (d : option unicode) : HttpRequest :=
  {| method := m; req_url := fullUrl; params := p ∪ _getAuth c; data := d;
     headers := match d with
                | Some _ => {[ "Content-type" := "application/json" ]}
                | None => ∅
                end |}.

(** The world right after the response arrived. *)
Definition arrived (w : World) (rq : HttpRequest) (response : HttpResponse)
    (s' : Server) : World :=
  log (with_net w s') [Sent rq; Received response].

(** The text counted by the byte counter over a stretch of history: the
    [len] of every response that passed the status check. *)
Definition counted (es : list event) : Z :=
  fold_right
    (fun e acc =>
       match e with
       | Received r =>
           if status_code r =? requests_codes_ok then len (text r) + acc
           else acc
       | _ => acc
       end) 0 es.

(** ** The two generators

    [runSearchRequest] and [runListRequest] are generators around the same
    loop.  A generator is its suspended frame; [step] runs it to the next
    program point of interest, and the consumer drives it step by step.
    The frames are: not started yet; at the test of [while notDone]; inside
    the page, with the items still to be yielded; finished (returned or
    raised), after which the generator only ever stops. *)
Inductive frame :=
| Created
| While (fullUrl : string) (notDone : bool)
| Page (fullUrl : string) (responseObject : PyObject) (rest : list pyval)
| Finished.

(** What distinguishes the two loops: how the URL is formed, which request
    each iteration sends, and what the body yields for a page. *)
Record loop := {
  makeUrl : HttpClient -> result string;
  httpMethod : string;
  httpParams : PyObject -> gmap string pyval;
  httpData : PyObject -> option unicode;
  responseClass : ProtocolClass;
  yields : PyObject -> result (list pyval)
}.

(** [for extract in getattr(responseObject, listAttr)] *)
Definition listItems (listAttr : string) (responseObject : PyObject)
    : result (list pyval) :=
  match responseObject !! listAttr with
  | None => Raise (AttributeError listAttr)
  | Some v =>
      match py_iter v with
      | Some l => Ok l
      | None => Raise TypeError
      end
  end.

(** [runSearchRequest]: POST the serialised request to
    [<prefix>/<objectName>/search] and yield each item of [listAttr]. *)
Definition runSearchRequest (objectName : string)
    (protocolResponseClass : ProtocolClass) (listAttr : string) : loop :=
  {| makeUrl := fun c =>
       Ok (posixpath_join (_urlPrefix c) (objectName +:+ "/search"));
     httpMethod := "POST";
     httpParams := fun _ => ∅;
     httpData := fun protocolRequest => Some (toJsonString protocolRequest);
     responseClass := protocolResponseClass;
     yields := listItems listAttr |}.

(** [runListRequest]: GET the URL with the request as query parameters and
    yield each response object whole. *)
Definition runListRequest (url : string)
    (protocolResponseClass : ProtocolClass) (id_ : string) : loop :=
  {| makeUrl := fun c =>
       str_format (posixpath_join (_urlPrefix c) url) [("id", id_)];
     httpMethod := "GET";
     httpParams := fun protocolRequest => toJsonDict protocolRequest;
     httpData := fun _ => None;
     responseClass := protocolResponseClass;
     yields := fun responseObject => Ok [PyObj responseObject] |}.

(** The response classes the typed methods bind. *)
Record Protocol := {
  GAReferenceSet : ProtocolClass;
  GAReference : ProtocolClass;
  GAListReferenceBasesResponse : ProtocolClass;
  GASearchVariantsResponse : ProtocolClass;
  GASearchVariantSetsResponse : ProtocolClass;
  GASearchReferenceSetsResponse : ProtocolClass;
  GASearchReferencesResponse : ProtocolClass;
  GASearchCallSetsResponse : ProtocolClass;
  GASearchReadGroupSetsResponse : ProtocolClass;
  GASearchReadsResponse : ProtocolClass
}.

Section Facade.
Variable protocol : Protocol.

Definition getReferenceSet (id_ : string) : M PyObject :=
  runGetRequest "referencesets" (GAReferenceSet protocol) id_.

Definition getReference (id_ : string) : M PyObject :=
  runGetRequest "references" (GAReference protocol) id_.

Definition listReferenceBases (id_ : string) : loop :=
  runListRequest "references/{id}/bases"
    (GAListReferenceBasesResponse protocol) id_.

Definition searchVariants : loop :=
  runSearchRequest "variants" (GASearchVariantsResponse protocol) "variants".

Definition searchVariantSets : loop :=
  runSearchRequest "variantsets" (GASearchVariantSetsResponse protocol)
    "variantSets".

Definition searchReferenceSets : loop :=
  runSearchRequest "referencesets" (GASearchReferenceSetsResponse protocol)
    "referenceSets".

Definition searchReferences : loop :=
  runSearchRequest "references" (GASearchReferencesResponse protocol)
    "references".

Definition searchCallSets : loop :=
  runSearchRequest "callsets" (GASearchCallSetsResponse protocol) "callSets".

Definition searchReadGroupSets : loop :=
  runSearchRequest "readgroupsets" (GASearchReadGroupSetsResponse protocol)
    "readGroupSets".

Definition searchReads : loop :=
  runSearchRequest "reads" (GASearchReadsResponse protocol) "alignments".

End Facade.

(** The request one iteration sends, and the call that sends it. *)
Definition outgoing (g : loop) (fullUrl : string) (w : World)
    : HttpRequest :=
  requestOf (httpMethod g) fullUrl (self w)
    (httpParams g (protocolRequest w)) (httpData g (protocolRequest w)).

Definition fetch (g : loop) (fullUrl : string) : M PyObject := fun w =>
  _doRequest (httpMethod g) fullUrl (responseClass g)
    (httpParams g (protocolRequest w)) (httpData g (protocolRequest w)) w.

(** An exception leaves the generator finished and reaches the consumer. *)
Definition fail (e : exn) (w : World) : frame * World :=
  (Finished, log w [Raised e]).

Definition step (g : loop) (f : frame) (w : World) : frame * World :=
  match f with
  | Created =>
      match makeUrl g (self w) with
      | Ok fullUrl => (While fullUrl true, w)
      | Raise e => fail e w
      end
  | While fullUrl false => (Finished, w)
  | While fullUrl true =>
      match fetch g fullUrl w with
      | (Ok responseObject, w') =>
          match yields g responseObject with
          | Ok items => (Page fullUrl responseObject items, w')
          | Raise e => fail e w'
          end
      | (Raise e, w') => fail e w'
      end
  | Page fullUrl responseObject (extract :: rest) =>
      (Page fullUrl responseObject rest, log w [Yielded extract])
  | Page fullUrl responseObject [] =>
      match _updateNotDone responseObject w with
      | (Ok notDone, w') => (While fullUrl notDone, w')
      | (Raise e, w') => fail e w'
      end
  | Finished => (Finished, w)
  end.

Fixpoint steps (g : loop) (n : nat) (f : frame) (w : World)
    : frame * World :=
  match n with
  | O => (f, w)
  | S n' => let '(f', w') := step g f w in steps g n' f' w'
  end.

(** The generator finishes: some number of steps brings it to [Finished]. *)
Definition terminates (g : loop) (w : World) : Prop :=
  exists n, fst (steps g n Created w) = Finished.

(** What has been observed since the world [w0]. *)
Definition since (w0 w : World) : list event :=
  drop (length (history w0)) (history w).

Definition yielded (es : list event) : list pyval :=
  flat_map (fun e => match e with Yielded v => [v] | _ => [] end) es.

Definition sent (es : list event) : list HttpRequest :=
  flat_map (fun e => match e with Sent r => [r] | _ => [] end) es.

(** The token that makes the loop go round once more, if the page has one:
    the [nextPageToken] attribute, when present and not [None]. *)
Definition continuation (responseObject : PyObject) : option pyval :=
  match responseObject !! "nextPageToken" with
  | Some token => if is_not_None token then Some token else None
  | None => None
  end.

(** The object a response deserialises to, when it passes the status
    check. *)
Definition page_of (cls : ProtocolClass) (response : HttpResponse)
    : option PyObject :=
  if status_code response =? requests_codes_ok
  then returned (fromJsonString cls (text response))
  else None.

(** A response after which the loop goes on: it passes the status check,
    deserialises, the body of the loop can iterate over it, and it carries
    a token. *)
Definition continues (g : loop) (response : HttpResponse) : bool :=
  match page_of (responseClass g) response with
  | Some responseObject =>
      match yields g responseObject, continuation responseObject with
      | Ok _, Some _ => true
      | _, _ => false
      end
  | None => false
  end.

(** The designated list field of a response, read off the response: the
    items of the attribute [listAttr] of the object the response
    deserialises to (the letters, when the attribute is a text). *)
Definition listField (cls : ProtocolClass) (listAttr : string)
    (response : HttpResponse) : list pyval :=
  match page_of cls response with
  | Some responseObject =>
      match responseObject !! listAttr with
      | Some (PyList l) => l
      | Some (PyStr t) => letters t
      | _ => []
      end
  | None => []
  end.

(** One round trip of the loop: the request that left, the response that
    came back, and the items the loop body yields for it. *)
Record exchange := {
  ex_request : HttpRequest;
  ex_response : HttpResponse;
  ex_items : list pyval
}.

Definition observed (x : exchange) : list event :=
  Sent (ex_request x) :: Received (ex_response x)
    :: map Yielded (ex_items x).

(** The server, in state [s], answers the successive requests of a client
    that starts from the request object [protocolRequest] with a finite
    sequence of good pages: each passes the status check, deserialises and
    can be iterated; each but the last carries a token, which the next
    request takes over; the last carries none (absent or null). *)
Inductive session (g : loop) (fullUrl : string) (c : HttpClient)
    : Server -> PyObject -> list exchange -> Prop :=
| session_last s protocolRequest response s' responseObject items :
    requests_request s
      (requestOf (httpMethod g) fullUrl c (httpParams g protocolRequest)
         (httpData g protocolRequest)) = (Ok response, s') ->
    page_of (responseClass g) response = Some responseObject ->
    yields g responseObject = Ok items ->
    continuation responseObject = None ->
    session g fullUrl c s protocolRequest
      [ {| ex_request :=
             requestOf (httpMethod g) fullUrl c (httpParams g protocolRequest)
               (httpData g protocolRequest);
           ex_response := response; ex_items := items |} ]
| session_more s protocolRequest response s' responseObject items token rest :
    requests_request s
      (requestOf (httpMethod g) fullUrl c (httpParams g protocolRequest)
         (httpData g protocolRequest)) = (Ok response, s') ->
    page_of (responseClass g) response = Some responseObject ->
    yields g responseObject = Ok items ->
    continuation responseObject = Some token ->
    session g fullUrl c s' (<[ "pageToken" := token ]> protocolRequest) rest ->
    session g fullUrl c s protocolRequest
      ({| ex_request :=
            requestOf (httpMethod g) fullUrl c (httpParams g protocolRequest)
              (httpData g protocolRequest);
          ex_response := response; ex_items := items |} :: rest).

(** Some response in this stretch of history deserialises to a page whose
    token is absent or null. *)
Definition last_page_seen (g : loop) (es : list event) : Prop :=
  exists response responseObject,
    In (Received response) es
    /\ fromJsonString (responseClass g) (text response) = Ok responseObject
    /\ continuation responseObject = None.

(** Some exception reached the consumer in this stretch of history. *)
Definition raised_in (es : list event) : Prop :=
  exists e, In (Raised e) es.

(** What holds of a generator started in [w0], frame by frame: as long as
    the loop goes on nothing was raised and every response so far was one
    after which it goes on; inside a page the current response is the only
    one that may end it, and does so exactly when it has no token; once
    the loop is left, either an exception was raised or a page without
    token has arrived. *)
Definition run_invariant (g : loop) (w0 : World) (f : frame) (w : World)
    : Prop :=
  exists es,
    history w = history w0 ++ es
    /\ match f with
       | Created => es = [] /\ self w = self w0
       | While _ true =>
           (forall r, In (Received r) es -> continues g r = true)
           /\ ~ raised_in es
       | While _ false => last_page_seen g es
       | Page _ responseObject _ =>
           (forall r, In (Received r) es -> continues g r = false ->
                      continuation responseObject = None)
           /\ (continuation responseObject = None -> last_page_seen g es)
           /\ ~ raised_in es
       | Finished => raised_in es \/ last_page_seen g es
       end.

(** What a quiet client (debug level at most 1) prints over a stretch of
    history: the text of every response that failed the status check. *)
Definition refused_bodies (es : list event) : list unicode :=
  flat_map
    (fun e =>
       match e with
       | Received r =>
           if status_code r =? requests_codes_ok then [] else [text r]
       | _ => []
       end) es.


End Client.

Arguments World {_}.
Arguments ProtocolClass {_}.
Arguments loop {_}.

(** ** A mock server

    A scripted server answers its n-th request with the n-th response of
    the script, whatever the request; a table gives the JSON value of each
    body the mock [json] module knows, every other text is not JSON. *)
Module Mock.

Definition lookup_body (bodies : list (unicode * PyObject)) (t : unicode)
    : option PyObject :=
  snd <$> List.find (fun p => bool_decide (fst p = t)) bodies.

Definition show_token (protocolRequest : PyObject) : unicode :=
  match protocolRequest !! "pageToken" with
  | Some (PyStr t) => u ("{'pageToken': '" +:+ t +:+ "'}")
  | _ => u "{'pageToken': null}"
  end.

Definition library (script : nat -> HttpResponse)
    (bodies : list (unicode * PyObject)) : Library :=
  {| Server := nat;
     requests_request := fun n _ => (Ok (script n), S n);
     Json := PyObject;
     json_loads := lookup_body bodies;
     json_dumps := fun _ => u "{...}";
     toJsonString := show_token;
     toJsonDict := fun protocolRequest => protocolRequest |}.

(** A response class whose schema accepts every JSON object. *)
Definition anyObject (script : nat -> HttpResponse)
    (bodies : list (unicode * PyObject))
    : @ProtocolClass (library script bodies) :=
  @Build_ProtocolClass (library script bodies) (fun j => Ok j).

Definition respond (status : Z) (body : string) : HttpResponse :=
  {| status_code := status; url := "http://host/variants/search";
     content := utf8_encode (u body); text := u body |}.

Definition body1 : string := "{'variants': [1, 2], 'nextPageToken': 'abc'}".
Definition body2 : string := "{'variants': [3], 'nextPageToken': null}".
Definition body3 : string := "{'variants': [4]}".

Definition object1 : PyObject :=
  {[ "variants" := PyList [PyInt 1; PyInt 2]; "nextPageToken" := PyStr "abc" ]}.
Definition object2 : PyObject :=
  {[ "variants" := PyList [PyInt 3]; "nextPageToken" := PyNone ]}.
Definition object3 : PyObject :=
  {[ "variants" := PyList [PyInt 4] ]}.

(** A body with one letter outside ASCII: e with an acute accent, one
    code point, two bytes on the wire. *)
Definition accentedText : unicode := u "['" ++ [233%N] ++ u "']".

Definition bodies : list (unicode * PyObject) :=
  [(u body1, object1); (u body2, object2); (u body3, object3);
   (accentedText, object3)].

(** Page 1 carries the token [abc], page 2 a null token. *)
Definition twoPages (n : nat) : HttpResponse :=
  match n with
  | O => respond 200 body1
  | _ => respond 200 body2
  end.

(** Every request is refused, with a body that would carry a token. *)
Definition alwaysRefused (n : nat) : HttpResponse := respond 500 body1.

(** Page 1 is served, the request for page 2 is refused. *)
Definition refusedAfterOne (n : nat) : HttpResponse :=
  match n with
  | O => respond 200 body1
  | _ => respond 500 "Internal Server Error"
  end.

(** Every request succeeds with a text that is not JSON. *)
Definition garbled (n : nat) : HttpResponse := respond 200 "<html>".

(** A created (201) answer whose body is a last page. *)
Definition created201 (n : nat) : HttpResponse := respond 201 body2.

Definition accented (n : nat) : HttpResponse :=
  {| status_code := 200; url := "http://host/variants/search";
     content := utf8_encode accentedText; text := accentedText |}.

Definition client (debugLevel : Z) (workarounds : list string) : HttpClient :=
  HttpClient_init "http://host" debugLevel workarounds (PyStr "secret").

Definition world (script : nat -> HttpResponse) (c : HttpClient)
    : @World (library script bodies) :=
  @Build_World (library script bodies) c ∅ O [] [].

(** [searchVariants] against the mock. *)
Definition search (script : nat -> HttpResponse)
    : @loop (library script bodies) :=
  @runSearchRequest (library script bodies) "variants"
    (anyObject script bodies) "variants".

Definition searchUrl : string := "http://host/variants/search".

(** The two round trips of a search over [twoPages], the second request
    carrying the token of the first page. *)
Definition exchange1 : exchange :=
  {| ex_request :=
       requestOf "POST" searchUrl (client 0 []) ∅ (Some (show_token ∅));
     ex_response := twoPages 0;
     ex_items := [PyInt 1; PyInt 2] |}.

Definition exchange2 : exchange :=
  {| ex_request :=
       requestOf "POST" searchUrl (client 0 []) ∅
         (Some (show_token {[ "pageToken" := PyStr "abc" ]}));
     ex_response := twoPages 1;
     ex_items := [PyInt 3] |}.

(** Every page carries a token. *)
Definition endless (n : nat) : HttpResponse := respond 200 body1.

(** [searchReads] against the mock, whose pages have no [alignments]. *)
Definition searchReads (script : nat -> HttpResponse)
    : @loop (library script bodies) :=
  @runSearchRequest (library script bodies) "reads"
    (anyObject script bodies) "alignments".

(** [listReferenceBases] against the mock. *)
Definition listBases (script : nat -> HttpResponse) (id_ : string)
    : @loop (library script bodies) :=
  @runListRequest (library script bodies) "references/{id}/bases"
    (anyObject script bodies) id_.

(** No such reference set. *)
Definition notFound (n : nat) : HttpResponse :=
  {| status_code := 404; url := "http://host/referencesets/missing-id";
     content := utf8_encode (u "Not Found"); text := u "Not Found" |}.

(** A protocol all of whose response classes accept every object. *)
Definition protocol (script : nat -> HttpResponse)
    : @Protocol (library script bodies) :=
  let cls := anyObject script bodies in
  @Build_Protocol (library script bodies)
    cls cls cls cls cls cls cls cls cls cls.

Definition basesUrl : string := "http://host/references/7/bases".

(** The two round trips of a list run over [twoPages]. *)
Definition listExchange1 : exchange :=
  {| ex_request := requestOf "GET" basesUrl (client 0 []) ∅ None;
     ex_response := twoPages 0;
     ex_items := [PyObj object1] |}.

Definition listExchange2 : exchange :=
  {| ex_request :=
       requestOf "GET" basesUrl (client 0 [])
         (<[ "pageToken" := PyStr "abc" ]> ∅) None;
     ex_response := twoPages 1;
     ex_items := [PyObj object2] |}.

(** A machine without network: every call of [requests.request] raises. *)
Definition offline : Library :=
  {| Server := nat;
     requests_request := fun n _ =>
       (Raise (RequestException "Connection refused"), S n);
     Json := PyObject;
     json_loads := lookup_body bodies;
     json_dumps := fun _ => u "{...}";
     toJsonString := show_token;
     toJsonDict := fun protocolRequest => protocolRequest |}.

Definition offlineSearch : @loop offline :=
  @runSearchRequest offline "variants"
    (@Build_ProtocolClass offline (fun j => Ok j)) "variants".

Definition offlineWorld : @World offline :=
  @Build_World offline (client 0 []) ∅ O [] [].

End Mock.

(** ** The simulated variant set *)
Module Simulator.

Inductive base := A | C | G | T.

Record VariantCompoundId := {
  cid_variantSetId : string;
  cid_referenceName : string;
  cid_start : string
}.

Record Variant := {
  id : VariantCompoundId;
  variantSetId : string;
  referenceName : string;
  start : Z;
  end_ : Z;
  referenceBases : base;
  alternateBases : list base;
  calls : list Z;
  created : Z;
  updated : Z
}.

Record SimulatedVariantSet := {
  _id : string;
  _randomSeed : Z;
  _numCalls : nat;
  _variantDensity : Qc;
  _creationTime : Z;
  _updatedTime : Z
}.

(** The pseudo-random choices, as functions of the seed and the position:
    whether a position carries a record when the density is below one,
    the two bases, and the calls. *)
Record sampler := {
  sparse : Z -> Qc -> Z -> bool;
  drawReference : Z -> Z -> base;
  drawAlternate : Z -> Z -> base;
  drawCall : Z -> Z -> nat -> Z
}.

Section Generator.
Variable rng : sampler.

(** Modelled from the spec: [ga4gh.datamodel.variants] is missing.  The
    constructor stores the seed, the call count and the density, and takes
    both timestamps from the clock at construction, equal to each other. *)
Definition construct (now : Z) (datasetId localId : string) (randomSeed : Z)
    (numCalls : nat) (variantDensity : Qc) : SimulatedVariantSet :=
  {| _id := datasetId +:+ ":" +:+ localId; _randomSeed := randomSeed;
     _numCalls := numCalls; _variantDensity := variantDensity;
     _creationTime := now; _updatedTime := now |}.

(** Modelled from the spec: the record at one position.  Its identifier
    is the composite of variant-set id, reference name and start; it
    covers one base; the bases come from the four-letter alphabet; it has
    exactly the configured number of calls; its timestamps are those of
    the generator. *)
Definition generateVariant (vs : SimulatedVariantSet) (refName : string)
    (position : Z) : Variant :=
  {| id := {| cid_variantSetId := _id vs; cid_referenceName := refName;
              cid_start := str_of_Z position |};
     variantSetId := _id vs;
     referenceName := refName;
     start := position;
     end_ := position + 1;
     referenceBases := drawReference rng (_randomSeed vs) position;
     alternateBases := [drawAlternate rng (_randomSeed vs) position];
     calls := map (drawCall rng (_randomSeed vs) position)
                (seq 0 (_numCalls vs));
     created := _creationTime vs;
     updated := _updatedTime vs |}.

(** Modelled from the spec: with a density of at least one every position
    carries a record; what a lower density does the spec leaves open, and
    [sparse] stands for it. *)
Definition hasVariant (vs : SimulatedVariantSet) (position : Z) : bool :=
  bool_decide (1 ≤ _variantDensity vs)%Qc
  || sparse rng (_randomSeed vs) (_variantDensity vs) position.

(** Modelled from the spec: [getVariants] over the half-open range
    [startPosition, endPosition): one record per position that carries
    one, in increasing order of position. *)
Definition getVariants (vs : SimulatedVariantSet) (refName : string)
    (startPosition endPosition : Z) : list Variant :=
  flat_map (fun position =>
              if hasVariant vs position
              then [generateVariant vs refName position] else [])
    (seqZ startPosition (endPosition - startPosition)).

End Generator.

(** [_assertEqualVariantLists] sets the two time-dependent fields of every
    record to 0 before it compares the lists. *)
Definition timeless (v : Variant) : Variant :=
  {| id := id v; variantSetId := variantSetId v;
     referenceName := referenceName v; start := start v; end_ := end_ v;
     referenceBases := referenceBases v;
     alternateBases := alternateBases v; calls := calls v;
     created := 0; updated := 0 |}.

(** A sampler for examples. *)
Definition modular : sampler :=
  {| sparse := fun seed _ position => Z.even (seed + position);
     drawReference := fun seed position =>
       if Z.even (seed + position) then A else C;
     drawAlternate := fun seed position =>
       if Z.even (seed + position) then G else T;
     drawCall := fun seed position k => (seed + position + Z.of_nat k) mod 2 |}.

End Simulator.

(** * Properties *)

Section Facts.
Context `{!Library}.

Implicit Types (w : World) (response : HttpResponse) (cls : ProtocolClass).

Ltac unfold_M :=
  unfold mbind, M_bind, mret, M_ret, raise, lift, get_self, print in *.

(** ** Deserialising a response *)

(** What [_deserializeResponse] returns or raises is what [fromJsonString]
    returns or raises on the text, whatever the debug level. *)
Lemma deserialize_result response cls w :
  fst (_deserializeResponse response cls w)
  = fromJsonString cls (text response).
Proof.
  unfold _deserializeResponse, _debugResponse, _updateBytesRead, fromJsonString.
  unfold_M. cbn.
  destruct (1 <? _debugLevel (self w)); cbn;
    destruct (json_loads (text response)); cbn;
    try reflexivity; destruct (fromJsonDict cls _); reflexivity.
Qed.

(** It changes the byte counter and, when verbose, the standard output,
    and nothing else; the counter grows by [len] of the text even when the
    call raises. *)
Lemma deserialize_world response cls w :
  let w' := snd (_deserializeResponse response cls w) in
  self w' = set_bytesRead (self w) (_bytesRead (self w) + len (text response))
  /\ protocolRequest w' = protocolRequest w
  /\ net w' = net w
  /\ history w' = history w.
Proof.
  unfold _deserializeResponse, _debugResponse, _updateBytesRead, fromJsonString.
  unfold_M. cbn.
  destruct (1 <? _debugLevel (self w)); cbn;
    destruct (json_loads (text response)); cbn;
    try (repeat split; reflexivity);
    destruct (fromJsonDict cls _); repeat split; reflexivity.
Qed.

Lemma deserialize_quiet response cls w :
  _debugLevel (self w) <= 1 ->
  stdout (snd (_deserializeResponse response cls w)) = stdout w.
Proof.
  intros Hd.
  unfold _deserializeResponse, _debugResponse, _updateBytesRead, fromJsonString.
  unfold_M. cbn.
  replace (1 <? _debugLevel (self w)) with false
    by (symmetry; apply Z.ltb_ge; exact Hd).
  cbn. destruct (json_loads (text response)); cbn; try reflexivity.
  destruct (fromJsonDict cls _); reflexivity.
Qed.

(** When verbose, the header line is printed before the text is parsed. *)
Lemma deserialize_verbose response cls w :
  1 < _debugLevel (self w) ->
  stdout (snd (_deserializeResponse response cls w))
  = stdout w ++ u "json response:"
      :: match json_loads (text response) with
         | Some j => [json_dumps j]
         | None => []
         end.
Proof.
  intros Hd.
  unfold _deserializeResponse, _debugResponse, _updateBytesRead, fromJsonString.
  unfold_M. cbn.
  replace (1 <? _debugLevel (self w)) with true
    by (symmetry; apply Z.ltb_lt; exact Hd).
  cbn. destruct (json_loads (text response)); cbn.
  - destruct (fromJsonDict cls _); cbn; rewrite <- app_assoc; reflexivity.
  - reflexivity.
Qed.

(** ** One request *)

(** [_doRequest] sends exactly one request; a status other than 200 prints
    the body and raises, a status of 200 hands the response to
    [_deserializeResponse]. *)
Lemma doRequest_unfold m fullUrl cls p d w response s' :
  requests_request (net w) (requestOf m fullUrl (self w) p d)
    = (Ok response, s') ->
  _doRequest m fullUrl cls p d w =
  let w1 := arrived w (requestOf m fullUrl (self w) p d) response s' in
  if status_code response =? requests_codes_ok
  then _deserializeResponse response cls w1
  else (Raise (Exception (status_message response)),
        with_stdout w1 (stdout w1 ++ [text response])).
Proof.
  intros Hrq. unfold _doRequest, request, _checkStatus. unfold_M.
  cbn. unfold requestOf in Hrq.
  destruct d; cbn in *; rewrite Hrq; cbn;
    destruct (status_code response =? requests_codes_ok); cbn;
    try reflexivity;
    destruct (_deserializeResponse response cls _) as [[?|?] ?]; reflexivity.
Qed.

(** One iteration of the loop, from the test of [while notDone] to the
    first item of the page or to the exception. *)
Lemma step_fetch (g : loop) fullUrl w response s' :
  requests_request (net w) (outgoing g fullUrl w) = (Ok response, s') ->
  step g (While fullUrl true) w =
  let w1 := arrived w (outgoing g fullUrl w) response s' in
  if status_code response =? requests_codes_ok then
    let w2 := snd (_deserializeResponse response (responseClass g) w1) in
    match fromJsonString (responseClass g) (text response) with
    | Ok responseObject =>
        match yields g responseObject with
        | Ok items => (Page fullUrl responseObject items, w2)
        | Raise e => fail e w2
        end
    | Raise e => fail e w2
    end
  else fail (Exception (status_message response))
         (with_stdout w1 (stdout w1 ++ [text response])).
Proof.
  intros Hrq. unfold step, fetch.
  rewrite (doRequest_unfold _ _ _ _ _ _ _ _ Hrq). cbn zeta.
  fold (outgoing g fullUrl w).
  destruct (status_code response =? requests_codes_ok); [|reflexivity].
  rewrite <- (deserialize_result response (responseClass g)
                (arrived w (outgoing g fullUrl w) response s')).
  destruct (_deserializeResponse _ _ _) as [[obj|e] w2]; reflexivity.
Qed.

(** When [requests.request] raises, the call was made, nothing came back,
    and the exception goes through [_doRequest] to the caller. *)
Lemma doRequest_failed m fullUrl cls p d w e s' :
  requests_request (net w) (requestOf m fullUrl (self w) p d)
    = (Raise e, s') ->
  _doRequest m fullUrl cls p d w
  = (Raise e, log (with_net w s') [Sent (requestOf m fullUrl (self w) p d)]).
Proof.
  intros Hrq. unfold _doRequest, request. unfold_M.
  cbn. unfold requestOf in Hrq.
  destruct d; cbn in *; rewrite Hrq; reflexivity.
Qed.

Lemma step_fetch_failed (g : loop) fullUrl w e s' :
  requests_request (net w) (outgoing g fullUrl w) = (Raise e, s') ->
  step g (While fullUrl true) w
  = (Finished,
     log (log (with_net w s') [Sent (outgoing g fullUrl w)]) [Raised e]).
Proof.
  intros Hrq. unfold step, fetch.
  rewrite (doRequest_failed _ _ _ _ _ _ _ _ Hrq). reflexivity.
Qed.

Lemma counted_app es1 es2 : counted (es1 ++ es2) = counted es1 + counted es2.
Proof.
  unfold counted. induction es1 as [|e es1 IH]; cbn; [reflexivity|].
  destruct e; try exact IH.
  destruct (status_code r =? requests_codes_ok); lia.
Qed.

Lemma counted_nonneg es : 0 <= counted es.
Proof.
  unfold counted. induction es as [|e es IH]; cbn; [lia|].
  destruct e; try exact IH.
  destruct (status_code r =? requests_codes_ok); unfold len in *; lia.
Qed.

(** Every step extends the history, and moves the byte counter by the
    text it counted in that extension: by [len] of the response when one
    arrived with status 200, by nothing otherwise. *)
Lemma step_counts (g : loop) f w :
  exists es,
    history (snd (step g f w)) = history w ++ es
    /\ getBytesRead (self (snd (step g f w)))
       = getBytesRead (self w) + counted es.
Proof.
  destruct f as [|fullUrl [|]|fullUrl obj [|x rest]|].
  - cbn. destruct (makeUrl g (self w)); cbn.
    + exists []. rewrite app_nil_r. split; [reflexivity|cbn; lia].
    + exists [Raised e]. split; [reflexivity|cbn; lia].
  - destruct (requests_request (net w) (outgoing g fullUrl w))
      as [[response|e] s'] eqn:Hrq;
      [|rewrite (step_fetch_failed _ _ _ _ _ Hrq);
        exists [Sent (outgoing g fullUrl w); Raised e];
        cbn; rewrite <- app_assoc; split; [reflexivity|lia]].
    rewrite (step_fetch _ _ _ _ _ Hrq). cbn zeta.
    destruct (status_code response =? requests_codes_ok) eqn:Hst.
    + destruct (deserialize_world response (responseClass g)
                  (arrived w (outgoing g fullUrl w) response s'))
        as (Hself & _ & _ & Hhist).
      set (w2 := snd (_deserializeResponse _ _ _)) in *.
      assert (Hb : getBytesRead (self w2)
                   = getBytesRead (self w) + len (text response))
        by (rewrite Hself; reflexivity).
      destruct (fromJsonString (responseClass g) (text response)) as [obj|e];
        [destruct (yields g obj) as [items|e]|].
      * exists [Sent (outgoing g fullUrl w); Received response].
        cbn. rewrite Hhist, Hst, Hb. split; [reflexivity|lia].
      * exists [Sent (outgoing g fullUrl w); Received response; Raised e].
        cbn. rewrite Hhist, Hst, Hb. cbn. rewrite <- app_assoc.
        split; [reflexivity|lia].
      * exists [Sent (outgoing g fullUrl w); Received response; Raised e].
        cbn. rewrite Hhist, Hst, Hb. cbn. rewrite <- app_assoc.
        split; [reflexivity|lia].
    + exists [Sent (outgoing g fullUrl w); Received response;
              Raised (Exception (status_message response))].
      cbn. rewrite Hst. rewrite <- app_assoc. split; [reflexivity|lia].
  - cbn. exists []. rewrite app_nil_r. split; [reflexivity|cbn; lia].
  - cbn. unfold _updateNotDone.
    destruct (obj !! "nextPageToken"); cbn; exists [];
      rewrite app_nil_r; (split; [reflexivity|cbn; lia]).
  - cbn. exists [Yielded x]. split; [reflexivity|cbn; lia].
  - cbn. exists []. rewrite app_nil_r. split; [reflexivity|cbn; lia].
Qed.

Lemma steps_S (g : loop) n f w :
  steps g (S n) f w = steps g n (fst (step g f w)) (snd (step g f w)).
Proof. cbn. destruct (step g f w); reflexivity. Qed.

Lemma steps_add (g : loop) n m f w :
  steps g (n + m) f w
  = steps g m (fst (steps g n f w)) (snd (steps g n f w)).
Proof.
  revert f w. induction n as [|n IH]; intros f w; [reflexivity|].
  rewrite Nat.add_succ_l, !steps_S. apply IH.
Qed.

(** Once finished, a generator stays finished and touches nothing. *)
Lemma steps_Finished (g : loop) n w : steps g n Finished w = (Finished, w).
Proof. induction n as [|n IH]; [reflexivity|]. rewrite steps_S. exact IH. Qed.

Lemma steps_counts (g : loop) n f w :
  exists es,
    history (snd (steps g n f w)) = history w ++ es
    /\ getBytesRead (self (snd (steps g n f w)))
       = getBytesRead (self w) + counted es.
Proof.
  revert f w. induction n as [|n IH]; intros f w.
  - exists []. cbn. rewrite app_nil_r. split; [reflexivity|lia].
  - rewrite steps_S.
    destruct (step_counts g f w) as (es1 & Hh1 & Hb1).
    destruct (IH (fst (step g f w)) (snd (step g f w))) as (es2 & Hh2 & Hb2).
    exists (es1 ++ es2). rewrite Hh2, Hh1, Hb2, Hb1, counted_app, app_assoc.
    split; [reflexivity|lia].
Qed.

Lemma since_app w0 w es : history w = history w0 ++ es -> since w0 w = es.
Proof. intros E. unfold since. rewrite E. apply drop_app_length. Qed.

(** ** The byte counter *)

(** C9: two clients that differ only in their debug level, deserialising
    the same response, return the same object (or raise the same error)
    and end with the same byte counter; they also leave the request
    object, the server and the history alike.  Only the standard output
    differs. *)
Theorem debug_level_unobservable response cls w (d1 d2 : Z) :
  let run d :=
    _deserializeResponse response cls
      (with_self w (set_debugLevel (self w) d)) in
  fst (run d1) = fst (run d2)
  /\ getBytesRead (self (snd (run d1))) = getBytesRead (self (snd (run d2)))
  /\ protocolRequest (snd (run d1)) = protocolRequest (snd (run d2))
  /\ net (snd (run d1)) = net (snd (run d2))
  /\ history (snd (run d1)) = history (snd (run d2)).
Proof.
  intros run. unfold run.
  rewrite !deserialize_result.
  destruct (deserialize_world response cls
              (with_self w (set_debugLevel (self w) d1)))
    as (Hs1 & Hp1 & Hn1 & Hh1).
  destruct (deserialize_world response cls
              (with_self w (set_debugLevel (self w) d2)))
    as (Hs2 & Hp2 & Hn2 & Hh2).
  rewrite Hs1, Hs2, Hp1, Hp2, Hn1, Hn2, Hh1, Hh2.
  repeat split; reflexivity.
Qed.

(** C10: when the response passes the status check and its text fails to
    deserialise, the call raises that error, and the byte counter has
    already grown by [len] of the text. *)
Theorem bytes_counted_before_parse m fullUrl cls p d w response s' e :
  requests_request (net w) (requestOf m fullUrl (self w) p d)
    = (Ok response, s') ->
  status_code response = requests_codes_ok ->
  fromJsonString cls (text response) = Raise e ->
  let r := _doRequest m fullUrl cls p d w in
  fst r = Raise e
  /\ getBytesRead (self (snd r)) = getBytesRead (self w) + len (text response).
Proof.
  intros Hrq Hst Hparse r. unfold r.
  rewrite (doRequest_unfold _ _ _ _ _ _ _ _ Hrq). cbn zeta.
  rewrite Hst, Z.eqb_refl.
  rewrite deserialize_result, Hparse.
  destruct (deserialize_world response cls
              (arrived w (requestOf m fullUrl (self w) p d) response s'))
    as (Hs & _).
  rewrite Hs. split; reflexivity.
Qed.

(** The counter never goes down, and over any stretch of a generator's run
    it grows by the [len] of the texts that passed the status check. *)
Lemma bytes_read_monotone (g : loop) n f w :
  getBytesRead (self w) <= getBytesRead (self (snd (steps g n f w))).
Proof.
  destruct (steps_counts g n f w) as (es & _ & Hb).
  rewrite Hb. pose proof (counted_nonneg es). lia.
Qed.

Lemma bytes_read_sum (g : loop) n f w :
  getBytesRead (self (snd (steps g n f w)))
  = getBytesRead (self w) + counted (since w (snd (steps g n f w))).
Proof.
  destruct (steps_counts g n f w) as (es & Hh & Hb).
  rewrite (since_app _ _ _ Hh). exact Hb.
Qed.

(** ** The single-object getter *)

Lemma append_cons (c : ascii) (a b : string) :
  String c a +:+ b = String c (a +:+ b).
Proof. reflexivity. Qed.

Lemma append_nil_r (s : string) : s +:+ "" = s.
Proof.
  induction s as [|c s IH]; [reflexivity|].
  rewrite append_cons, IH. reflexivity.
Qed.

Lemma append_assoc (a b c : string) : (a +:+ b) +:+ c = a +:+ (b +:+ c).
Proof.
  induction a as [|x a IH]; [reflexivity|].
  rewrite !append_cons, IH. reflexivity.
Qed.

Lemma nobrace_app (a b : string) :
  nobrace (a +:+ b) = nobrace a && nobrace b.
Proof.
  induction a as [|c a IH]; [reflexivity|].
  rewrite append_cons. cbn [nobrace]. rewrite IH, !andb_assoc. reflexivity.
Qed.

(** Formatting leaves a prefix without braces as it is. *)
Lemma format_go_nobrace kw (a t : string) :
  nobrace a = true ->
  format_go kw None (a +:+ t)
  = result_map (String.append a) (format_go kw None t).
Proof.
  induction a as [|c a IH]; intros Hnb.
  - change ("" +:+ t) with t.
    destruct (format_go kw None t); reflexivity.
  - cbn [nobrace] in Hnb.
    apply andb_true_iff in Hnb as [Hc Ha].
    apply andb_true_iff in Hc as [Hopen Hclose].
    apply negb_true_iff in Hopen, Hclose.
    rewrite append_cons.
    cbn [format_go]. rewrite Hopen, Hclose, (IH Ha).
    destruct (format_go kw None t); reflexivity.
Qed.

Lemma getUrl_format (prefix objectName id_ : string) :
  nobrace prefix = true ->
  str_format (posixpath_join prefix "{objectName}/{id}")
    [("id", id_); ("objectName", objectName)]
  = Ok (resourceUrl prefix objectName id_).
Proof.
  intros Hnb. unfold str_format, posixpath_join, resourceUrl.
  cbn [startswith_slash Ascii.eqb Bool.eqb].
  assert (Hfield : format_go [("id", id_); ("objectName", objectName)] None
                     "{objectName}/{id}"
                   = Ok (objectName +:+ "/" +:+ id_)).
  { transitivity (Ok (A := string)
                    (objectName +:+ String "/" (id_ +:+ "")));
      [reflexivity|]. rewrite append_nil_r. reflexivity. }
  destruct (String.eqb prefix "" || endswith_slash prefix).
  - rewrite (format_go_nobrace _ _ _ Hnb), Hfield. reflexivity.
  - replace (prefix +:+ "/" +:+ "{objectName}/{id}")
      with ((prefix +:+ "/") +:+ "{objectName}/{id}")
      by apply append_assoc.
    rewrite format_go_nobrace, Hfield.
    + cbn [result_map]. rewrite append_assoc. reflexivity.
    + rewrite nobrace_app, Hnb. reflexivity.
Qed.


(** ** Inside a page and at its end *)

Lemma log_nil w : log w [] = w.
Proof. destruct w. unfold log. cbn. rewrite app_nil_r. reflexivity. Qed.

Lemma log_log w es1 es2 : log (log w es1) es2 = log w (es1 ++ es2).
Proof. destruct w. unfold log. cbn. rewrite app_assoc. reflexivity. Qed.

(** The items of a page are yielded one per step, in order, and nothing
    else happens meanwhile. *)
Lemma steps_page (g : loop) fullUrl responseObject items w :
  steps g (length items) (Page fullUrl responseObject items) w
  = (Page fullUrl responseObject [], log w (map Yielded items)).
Proof.
  revert w. induction items as [|x items IH]; intros w.
  - cbn. rewrite log_nil. reflexivity.
  - cbn [length]. rewrite steps_S. cbn [step fst snd].
    rewrite IH, log_log. reflexivity.
Qed.

(** A page without token, absent or null, ends the generator in two
    steps, during which nothing is sent, received, yielded or printed. *)
Lemma steps_last_page (g : loop) fullUrl responseObject w :
  continuation responseObject = None ->
  exists w',
    steps g 2 (Page fullUrl responseObject []) w = (Finished, w')
    /\ history w' = history w /\ net w' = net w /\ self w' = self w
    /\ stdout w' = stdout w.
Proof.
  unfold continuation. intros Hc. cbn. unfold _updateNotDone.
  destruct (responseObject !! "nextPageToken") as [token|].
  - destruct (is_not_None token); [discriminate|]. cbn.
    eexists. repeat split; reflexivity.
  - exists w. repeat split; reflexivity.
Qed.

(** A page with a token takes the loop back to its test, with the token
    copied into the request object. *)
Lemma step_next_page (g : loop) fullUrl responseObject token w :
  continuation responseObject = Some token ->
  step g (Page fullUrl responseObject []) w
  = (While fullUrl true,
     with_protocolRequest w (<[ "pageToken" := token ]> (protocolRequest w))).
Proof.
  unfold continuation. intros Hc. cbn. unfold _updateNotDone.
  destruct (responseObject !! "nextPageToken") as [t|]; [|discriminate].
  destruct (is_not_None t) eqn:Ht; [|discriminate].
  injection Hc as ->. cbn. reflexivity.
Qed.

(** C4: a page whose response object has no [nextPageToken] attribute and
    a page whose [nextPageToken] is [None] end the run alike: after the
    items of the page the generator finishes, and in both cases nothing
    more is sent; history, server, client and output end up the same. *)
Theorem absent_token_like_null_token (g : loop) fullUrl
    (absent null : PyObject) (items : list pyval) w :
  absent !! "nextPageToken" = None ->
  null !! "nextPageToken" = Some PyNone ->
  let n := (length items + 2)%nat in
  let r1 := steps g n (Page fullUrl absent items) w in
  let r2 := steps g n (Page fullUrl null items) w in
  fst r1 = Finished /\ fst r2 = Finished
  /\ history (snd r1) = history w ++ map Yielded items
  /\ history (snd r2) = history w ++ map Yielded items
  /\ sent (since w (snd r1)) = [] /\ sent (since w (snd r2)) = []
  /\ net (snd r1) = net w /\ net (snd r2) = net w
  /\ self (snd r1) = self (snd r2)
  /\ stdout (snd r1) = stdout (snd r2).
Proof.
  intros Habsent Hnull n r1 r2. unfold r1, r2, n.
  assert (Hc1 : continuation absent = None)
    by (unfold continuation; rewrite Habsent; reflexivity).
  assert (Hc2 : continuation null = None)
    by (unfold continuation; rewrite Hnull; reflexivity).
  assert (Hnone : forall l, sent (map Yielded l) = []).
  { induction l as [|y l IH]; [reflexivity|exact IH]. }
  rewrite !steps_add, !steps_page. cbn [fst snd].
  destruct (steps_last_page g fullUrl absent (log w (map Yielded items)) Hc1)
    as (w1 & E1 & Hh1 & Hn1 & Hs1 & Ho1).
  destruct (steps_last_page g fullUrl null (log w (map Yielded items)) Hc2)
    as (w2 & E2 & Hh2 & Hn2 & Hs2 & Ho2).
  rewrite E1, E2. cbn [fst snd].
  rewrite (since_app w w1 (map Yielded items)) by (rewrite Hh1; reflexivity).
  rewrite (since_app w w2 (map Yielded items)) by (rewrite Hh2; reflexivity).
  rewrite Hh1, Hh2, Hn1, Hn2, Hs1, Hs2, Ho1, Ho2, Hnone.
  repeat split; reflexivity.
Qed.

(** The two endings differ in one place only, the request object: a null
    token is copied into its [pageToken], an absent attribute leaves the
    [pageToken] of the previous page there. *)
Lemma end_of_page_request (g : loop) fullUrl (responseObject : PyObject) w :
  protocolRequest (snd (step g (Page fullUrl responseObject []) w))
  = match responseObject !! "nextPageToken" with
    | Some token => <[ "pageToken" := token ]> (protocolRequest w)
    | None => protocolRequest w
    end.
Proof.
  cbn. unfold _updateNotDone.
  destruct (responseObject !! "nextPageToken"); reflexivity.
Qed.

(** ** A whole run over good pages *)

Lemma requestOf_auth m fullUrl (c1 c2 : HttpClient) p d :
  _getAuth c1 = _getAuth c2 ->
  requestOf m fullUrl c1 p d = requestOf m fullUrl c2 p d.
Proof. intros E. unfold requestOf. rewrite E. reflexivity. Qed.

Lemma page_of_Some cls response responseObject :
  page_of cls response = Some responseObject ->
  (status_code response =? requests_codes_ok) = true
  /\ fromJsonString cls (text response) = Ok responseObject.
Proof.
  unfold page_of.
  destruct (status_code response =? requests_codes_ok); [|discriminate].
  destruct (fromJsonString cls (text response)); cbn; [|discriminate].
  intros [= ->]. split; reflexivity.
Qed.

(** A good page: one request leaves, the response arrives, the counter
    moves, and the generator stands before the first item. *)
Lemma step_good_page (g : loop) fullUrl w response s' responseObject items :
  requests_request (net w) (outgoing g fullUrl w) = (Ok response, s') ->
  page_of (responseClass g) response = Some responseObject ->
  yields g responseObject = Ok items ->
  exists w2,
    step g (While fullUrl true) w = (Page fullUrl responseObject items, w2)
    /\ history w2
       = history w ++ [Sent (outgoing g fullUrl w); Received response]
    /\ net w2 = s'
    /\ protocolRequest w2 = protocolRequest w
    /\ self w2
       = set_bytesRead (self w) (_bytesRead (self w) + len (text response)).
Proof.
  intros Hrq Hpage Hitems.
  apply page_of_Some in Hpage as [Hst Hparse].
  rewrite (step_fetch _ _ _ _ _ Hrq). cbn zeta.
  rewrite Hst, Hparse, Hitems.
  destruct (deserialize_world response (responseClass g)
              (arrived w (outgoing g fullUrl w) response s'))
    as (Hs & Hp & Hn & Hh).
  eexists. split; [reflexivity|].
  rewrite Hs, Hp, Hn, Hh. repeat split; reflexivity.
Qed.

Lemma steps_session (g : loop) fullUrl c s protocolRequest0 pages :
  session g fullUrl c s protocolRequest0 pages ->
  forall w,
    net w = s -> protocolRequest w = protocolRequest0 ->
    _getAuth (self w) = _getAuth c ->
    exists n w',
      steps g n (While fullUrl true) w = (Finished, w')
      /\ history w' = history w ++ flat_map observed pages.
Proof.
  induction 1 as [s rq0 response s' obj items Hrq Hpage Hitems Hlast
                 |s rq0 response s' obj items token rest Hrq Hpage Hitems Hmore
                    Hrest IH];
    intros w Hnet Hreq Hauth.
  - assert (Hout : outgoing g fullUrl w
                   = requestOf (httpMethod g) fullUrl c (httpParams g rq0)
                       (httpData g rq0))
      by (unfold outgoing; rewrite Hreq; apply requestOf_auth, Hauth).
    rewrite <- Hnet, <- Hout in Hrq.
    destruct (step_good_page g fullUrl w response s' obj items Hrq Hpage Hitems)
      as (w2 & Hstep & Hh2 & _).
    destruct (steps_last_page g fullUrl obj (log w2 (map Yielded items)) Hlast)
      as (w3 & Hend & Hh3 & _).
    exists (1 + (length items + 2))%nat, w3. split.
    + cbn [Nat.add]. rewrite steps_S, Hstep. cbn [fst snd].
      rewrite steps_add, steps_page. exact Hend.
    + rewrite Hh3. cbn [log history flat_map observed ex_request ex_response
                        ex_items].
      rewrite Hh2, Hout, app_nil_r, <- app_assoc. reflexivity.
  - assert (Hout : outgoing g fullUrl w
                   = requestOf (httpMethod g) fullUrl c (httpParams g rq0)
                       (httpData g rq0))
      by (unfold outgoing; rewrite Hreq; apply requestOf_auth, Hauth).
    rewrite <- Hnet, <- Hout in Hrq.
    destruct (step_good_page g fullUrl w response s' obj items Hrq Hpage Hitems)
      as (w2 & Hstep & Hh2 & Hn2 & Hp2 & Hs2).
    set (w3 := log w2 (map Yielded items)).
    set (w4 := with_protocolRequest w3
                 (<[ "pageToken" := token ]> (protocolRequest w3))).
    destruct (IH w4) as (n & w' & Hrun & Hh').
    + exact Hn2.
    + cbn. rewrite Hp2, Hreq. reflexivity.
    + cbn. rewrite Hs2. exact Hauth.
    + exists (1 + (length items + (1 + n)))%nat, w'. split.
      * cbn [Nat.add]. rewrite steps_S, Hstep. cbn [fst snd].
        rewrite steps_add, steps_page. cbn [fst snd]. fold w3.
        rewrite steps_S, (step_next_page g fullUrl obj token w3 Hmore).
        exact Hrun.
      * rewrite Hh'. cbn [w4 w3 with_protocolRequest log history flat_map
                          observed ex_request ex_response ex_items].
        rewrite Hh2, Hout, <- !app_assoc. reflexivity.
Qed.

Lemma yielded_app es1 es2 : yielded (es1 ++ es2) = yielded es1 ++ yielded es2.
Proof. apply flat_map_app. Qed.

Lemma sent_app es1 es2 : sent (es1 ++ es2) = sent es1 ++ sent es2.
Proof. apply flat_map_app. Qed.

Lemma yielded_observed (pages : list exchange) :
  yielded (flat_map observed pages) = concat (map ex_items pages).
Proof.
  induction pages as [|x pages IH]; [reflexivity|].
  cbn [flat_map map concat]. rewrite yielded_app, IH. f_equal.
  unfold observed. cbn. induction (ex_items x) as [|v l IHl];
    [reflexivity|]. cbn. f_equal. exact IHl.
Qed.

Lemma sent_observed (pages : list exchange) :
  sent (flat_map observed pages) = map ex_request pages.
Proof.
  induction pages as [|x pages IH]; [reflexivity|].
  cbn [flat_map map]. rewrite sent_app, IH.
  unfold observed. cbn. f_equal.
  induction (ex_items x) as [|v l IHl]; [reflexivity|exact IHl].
Qed.

Lemma session_search_items objectName cls listAttr fullUrl c s
    protocolRequest0 pages :
  session (runSearchRequest objectName cls listAttr) fullUrl c s
    protocolRequest0 pages ->
  Forall (fun x => exists responseObject,
                     page_of cls (ex_response x) = Some responseObject
                     /\ match responseObject !! listAttr with
                        | Some (PyList l) => ex_items x = l
                        | Some (PyStr t) => ex_items x = letters t
                        | _ => False
                        end) pages.
Proof.
  assert (Htie : forall (obj : PyObject) items,
             listItems listAttr obj = Ok items ->
             match obj !! listAttr with
             | Some (PyList l) => items = l
             | Some (PyStr t) => items = letters t
             | _ => False
             end).
  { intros obj items. unfold listItems.
    destruct (obj !! listAttr) as [[| t | z | l | o]|]; cbn;
      intros Hok; try discriminate; injection Hok as <-; reflexivity. }
  induction 1 as [s rq0 response s' obj items Hrq Hpage Hitems Hlast
                 |s rq0 response s' obj items token rest Hrq Hpage Hitems Hmore
                    Hrest IH];
    cbn in Hitems; apply Htie in Hitems.
  - constructor; [|constructor]. exists obj. split; assumption.
  - constructor; [|exact IH]. exists obj. split; assumption.
Qed.

Lemma listField_items cls listAttr (pages : list exchange) :
  Forall (fun x => exists responseObject,
                     page_of cls (ex_response x) = Some responseObject
                     /\ match responseObject !! listAttr with
                        | Some (PyList l) => ex_items x = l
                        | Some (PyStr t) => ex_items x = letters t
                        | _ => False
                        end) pages ->
  map ex_items pages
  = map (fun x => listField cls listAttr (ex_response x)) pages.
Proof.
  induction 1 as [|x pages (obj & Hpage & Htie) _ IH]; [reflexivity|].
  cbn [map]. rewrite IH. f_equal. unfold listField. rewrite Hpage.
  destruct (obj !! listAttr) as [[| t | z | l | o]|];
    try contradiction; exact Htie.
Qed.

(** C1: when the server answers the successive requests of a search with
    good pages, the last of which carries no token, [runSearchRequest]
    finishes, and what it did is, page after page in server order: send
    the request, receive the response, yield every item of the list field
    in order.  The items it yields for a page are exactly the items of
    the attribute [listAttr] of the object the response deserialises to;
    so what it yields in all is the concatenation of the list fields of
    the responses, each item once, and all items of a page come before
    the request for the next page. *)
Theorem runSearchRequest_concatenates objectName cls listAttr w
    (pages : list exchange) :
  let g := runSearchRequest objectName cls listAttr in
  let fullUrl :=
    posixpath_join (_urlPrefix (self w)) (objectName +:+ "/search") in
  session g fullUrl (self w) (net w) (protocolRequest w) pages ->
  exists n w',
    steps g n Created w = (Finished, w')
    /\ history w' = history w ++ flat_map observed pages
    /\ yielded (since w w') = concat (map ex_items pages)
    /\ sent (since w w') = map ex_request pages
    /\ Forall (fun x => exists responseObject,
                          page_of cls (ex_response x) = Some responseObject
                          /\ match responseObject !! listAttr with
                             | Some (PyList l) => ex_items x = l
                             | Some (PyStr t) => ex_items x = letters t
                             | _ => False
                             end) pages
    /\ yielded (since w w')
       = concat (map (fun x => listField cls listAttr (ex_response x))
                   pages).
Proof.
  intros g fullUrl Hpages.
  destruct (steps_session g fullUrl (self w) _ _ pages Hpages w
              eq_refl eq_refl eq_refl) as (n & w' & Hrun & Hh).
  pose proof (session_search_items _ _ _ _ _ _ _ _ Hpages) as Htie.
  exists (S n), w'. split; [|split; [exact Hh|]].
  - rewrite steps_S. exact Hrun.
  - rewrite (since_app w w' _ Hh), yielded_observed, sent_observed.
    rewrite <- (listField_items cls listAttr pages Htie).
    repeat split; try reflexivity. exact Htie.
Qed.

(** ** When the loop ends *)

Lemma continues_good_page (g : loop) response responseObject items :
  (status_code response =? requests_codes_ok) = true ->
  fromJsonString (responseClass g) (text response) = Ok responseObject ->
  yields g responseObject = Ok items ->
  continues g response
  = match continuation responseObject with Some _ => true | None => false end.
Proof.
  intros Hst Hparse Hitems. unfold continues, page_of.
  rewrite Hst, Hparse. cbn. rewrite Hitems. reflexivity.
Qed.

Lemma received_last es rq response tail r :
  In (Received r) (es ++ Sent rq :: Received response :: tail) ->
  (forall e, In e tail -> forall r', e <> Received r') ->
  In (Received r) es \/ r = response.
Proof.
  intros Hin Htail. apply in_app_or in Hin as [Hin|Hin]; [left; exact Hin|].
  destruct Hin as [Hin|[Hin|Hin]].
  - discriminate.
  - right. congruence.
  - exfalso. exact (Htail _ Hin r eq_refl).
Qed.

Lemma raised_in_app_r es1 es2 : raised_in es2 -> raised_in (es1 ++ es2).
Proof.
  intros (e & Hin). exists e. apply in_or_app. right. exact Hin.
Qed.

Lemma not_raised_app es1 es2 :
  ~ raised_in es1 -> (forall e, ~ In (Raised e) es2) ->
  ~ raised_in (es1 ++ es2).
Proof.
  intros H1 H2 (e & Hin). apply in_app_or in Hin as [Hin|Hin].
  - apply H1. exists e. exact Hin.
  - exact (H2 e Hin).
Qed.

Lemma last_page_seen_app_l (g : loop) es1 es2 :
  last_page_seen g es1 -> last_page_seen g (es1 ++ es2).
Proof.
  intros (r & obj & Hin & Hrest). exists r, obj. split; [|exact Hrest].
  apply in_or_app. left. exact Hin.
Qed.

(** A response that deserialises to a page without token ends the loop,
    whatever else is the matter with it. *)
Lemma last_page_stops (g : loop) response responseObject :
  fromJsonString (responseClass g) (text response) = Ok responseObject ->
  continuation responseObject = None ->
  continues g response = false.
Proof.
  intros Hparse Hnone. unfold continues, page_of.
  destruct (status_code response =? requests_codes_ok); [|reflexivity].
  rewrite Hparse. cbn. rewrite Hnone.
  destruct (yields g responseObject); reflexivity.
Qed.

Lemma step_invariant (g : loop) w0 f w :
  run_invariant g w0 f w ->
  run_invariant g w0 (fst (step g f w)) (snd (step g f w)).
Proof.
  intros (es & Hh & Hinv).
  destruct f as [|fullUrl [|]|fullUrl obj [|x rest]|].
  - (* not started: form the URL *)
    destruct Hinv as [-> Hself]. cbn. rewrite Hself.
    destruct (makeUrl g (self w0)) as [fullUrl|e] eqn:Hurl; cbn.
    + exists []. split; [exact Hh|]. split; [intros r []|].
      intros (e & []).
    + exists [Raised e]. split.
      * cbn [log history]. rewrite Hh, app_nil_r. reflexivity.
      * left. exists e. left. reflexivity.
  - (* one more request *)
    destruct Hinv as [Hgo Hquiet].
    destruct (requests_request (net w) (outgoing g fullUrl w))
      as [[response|e] s'] eqn:Hrq.
    2:{ (* the request itself raises *)
        rewrite (step_fetch_failed _ _ _ _ _ Hrq).
        exists (es ++ [Sent (outgoing g fullUrl w); Raised e]).
        cbn [fst snd log history with_net]. split.
        { rewrite Hh, <- !app_assoc. reflexivity. }
        left. apply raised_in_app_r. exists e. right. left. reflexivity. }
    rewrite (step_fetch _ _ _ _ _ Hrq). cbn zeta.
    set (rq := outgoing g fullUrl w).
    destruct (deserialize_world response (responseClass g)
                (arrived w rq response s')) as (_ & _ & _ & Hh2).
    cbn [arrived log history with_net] in Hh2.
    destruct (status_code response =? requests_codes_ok) eqn:Hst.
    + destruct (fromJsonString (responseClass g) (text response))
        as [obj|e] eqn:Hparse;
        [destruct (yields g obj) as [items|e] eqn:Hitems|].
      * (* a page *)
        pose proof (continues_good_page g response obj items Hst Hparse Hitems)
          as Hcont.
        exists (es ++ [Sent rq; Received response]). cbn [fst snd]. split.
        { rewrite Hh2, Hh, <- app_assoc. reflexivity. }
        split; [|split].
        { intros r Hin Hr.
          destruct (received_last es rq response [] r Hin
                      ltac:(intros e' [])) as [Hin'| ->].
          - rewrite (Hgo r Hin') in Hr. discriminate.
          - rewrite Hcont in Hr.
            destruct (continuation obj); [discriminate|reflexivity]. }
        { intros Hnone. exists response, obj. split; [|split; assumption].
          apply in_or_app. right. right. left. reflexivity. }
        { apply not_raised_app; [exact Hquiet|].
          intros e' [Hin|[Hin|[]]]; discriminate. }
      * (* the list field cannot be iterated *)
        exists (es ++ [Sent rq; Received response; Raised e]).
        cbn [fst snd fail log history]. split.
        { rewrite Hh2, Hh, <- !app_assoc. reflexivity. }
        left. apply raised_in_app_r. exists e. right. right. left.
        reflexivity.
      * (* the text does not deserialise *)
        exists (es ++ [Sent rq; Received response; Raised e]).
        cbn [fst snd fail log history]. split.
        { rewrite Hh2, Hh, <- !app_assoc. reflexivity. }
        left. apply raised_in_app_r. exists e. right. right. left.
        reflexivity.
    + (* status other than 200 *)
      exists (es ++ [Sent rq; Received response;
                     Raised (Exception (status_message response))]).
      cbn [fst snd fail log history with_stdout arrived with_net]. split.
      { rewrite Hh, <- !app_assoc. reflexivity. }
      left. apply raised_in_app_r. eexists. right. right. left. reflexivity.
  - (* the loop test fails *)
    exists es. split; [exact Hh|]. right. exact Hinv.
  - (* end of the page *)
    destruct Hinv as (Honly & Hstop & Hquiet).
    destruct (continuation obj) as [token|] eqn:Hc.
    + rewrite (step_next_page g fullUrl obj token w Hc). cbn [fst snd].
      exists es. split; [exact Hh|]. split; [|exact Hquiet].
      intros r Hin. destruct (continues g r) eqn:Hr; [reflexivity|].
      specialize (Honly r Hin Hr). discriminate.
    + destruct (steps_last_page g fullUrl obj w Hc) as (w' & Hrun & _).
      cbn in Hrun. cbn [step].
      destruct (_updateNotDone obj w) as [[[|]|e] w1] eqn:Hupd; cbn in Hrun.
      * exfalso. unfold _updateNotDone, continuation in *.
        destruct (obj !! "nextPageToken") as [t|]; [|discriminate].
        destruct (is_not_None t); [discriminate|]. discriminate.
      * exists es. cbn [fst snd]. split; [|exact (Hstop eq_refl)].
        unfold _updateNotDone in Hupd.
        destruct (obj !! "nextPageToken"); inversion Hupd; subst w1;
          exact Hh.
      * unfold _updateNotDone in Hupd.
        destruct (obj !! "nextPageToken"); discriminate.
  - (* one item *)
    cbn [step fst snd]. exists (es ++ [Yielded x]). split.
    + cbn [log history]. rewrite Hh, <- app_assoc. reflexivity.
    + destruct Hinv as (Honly & Hstop & Hquiet). split; [|split].
      * intros r Hin. apply in_app_or in Hin as [Hin|[Hin|[]]];
          [exact (Honly r Hin)|discriminate].
      * intros Hnone. apply last_page_seen_app_l, Hstop, Hnone.
      * apply not_raised_app; [exact Hquiet|].
        intros e' [Hin|[]]. discriminate.
  - (* finished *)
    exists es. split; [exact Hh|exact Hinv].
Qed.

Lemma steps_invariant (g : loop) w0 n f w :
  run_invariant g w0 f w ->
  run_invariant g w0 (fst (steps g n f w)) (snd (steps g n f w)).
Proof.
  revert f w. induction n as [|n IH]; intros f w Hinv; [exact Hinv|].
  rewrite steps_S. apply IH, step_invariant, Hinv.
Qed.

Lemma invariant_start (g : loop) w : run_invariant g w Created w.
Proof.
  exists []. split; [rewrite app_nil_r; reflexivity|]. split; reflexivity.
Qed.

Lemma terminates_iff (g : loop) w :
  terminates g w <->
  ((exists n, raised_in (since w (snd (steps g n Created w))))
   \/ exists n, last_page_seen g (since w (snd (steps g n Created w)))).
Proof.
  split.
  - intros (n & Hfin).
    pose proof (steps_invariant g w n Created w (invariant_start g w)) as Hinv.
    rewrite Hfin in Hinv. destruct Hinv as (es & Hh & Hend).
    rewrite <- (since_app _ _ _ Hh) in Hend.
    destruct Hend as [Hraised|Hlast]; [left|right]; exists n; assumption.
  - intros Hcause.
    assert (Hn : exists n,
               raised_in (since w (snd (steps g n Created w)))
               \/ last_page_seen g (since w (snd (steps g n Created w))))
      by (destruct Hcause as [(n & Hc)|(n & Hc)]; exists n; tauto).
    clear Hcause. destruct Hn as (n & Hcause).
    pose proof (steps_invariant g w n Created w (invariant_start g w))
      as (es & Hh & Hinv).
    rewrite (since_app _ _ _ Hh) in Hcause.
    destruct (steps g n Created w) as [f w'] eqn:Hrun.
    cbn [fst snd] in *.
    destruct f as [|fullUrl [|]|fullUrl obj rest|].
    + destruct Hinv as [-> _].
      destruct Hcause as [(e & [])|(r & obj & [] & _)].
    + destruct Hinv as [Hgo Hquiet].
      destruct Hcause as [Hraised|(r & obj & Hin & Hparse & Hnone)];
        [contradiction|].
      specialize (Hgo r Hin).
      rewrite (last_page_stops g r obj Hparse Hnone) in Hgo. discriminate.
    + exists (n + 1)%nat. rewrite steps_add, Hrun. reflexivity.
    + destruct Hinv as (Honly & _ & Hquiet).
      destruct Hcause as [Hraised|(r & o & Hin & Hparse & Hnone)];
        [contradiction|].
      pose proof (Honly r Hin (last_page_stops g r o Hparse Hnone)) as Hlast.
      destruct (steps_last_page g fullUrl obj (log w' (map Yielded rest))
                  Hlast) as (w'' & Hend & _).
      exists (n + (length rest + 2))%nat.
      rewrite steps_add, Hrun. cbn [fst snd].
      rewrite steps_add, steps_page. cbn [fst snd].
      rewrite Hend. reflexivity.
    + exists n. rewrite Hrun. reflexivity.
Qed.

(** What makes a response end the loop. *)
Lemma stops_iff (g : loop) response :
  continues g response = false <->
  status_code response <> requests_codes_ok
  \/ (exists e, fromJsonString (responseClass g) (text response) = Raise e)
  \/ (exists responseObject,
        fromJsonString (responseClass g) (text response) = Ok responseObject
        /\ ((exists e, yields g responseObject = Raise e)
            \/ responseObject !! "nextPageToken" = None
            \/ responseObject !! "nextPageToken" = Some PyNone)).
Proof.
  unfold continues, page_of.
  destruct (Z.eqb_spec (status_code response) requests_codes_ok) as [Hst|Hst];
    [|split; [intros _; left; exact Hst|reflexivity]].
  destruct (fromJsonString (responseClass g) (text response)) as [obj|e];
    cbn [returned];
    [|split; [intros _; right; left; exists e; reflexivity|reflexivity]].
  assert (Hc : continuation obj = None <->
               obj !! "nextPageToken" = None
               \/ obj !! "nextPageToken" = Some PyNone).
  { unfold continuation.
    destruct (obj !! "nextPageToken") as [[| | | |]|]; cbn;
      split; intros Hx; try discriminate; try tauto;
      destruct Hx as [Hx|Hx]; discriminate. }
  destruct (yields g obj) as [items|e] eqn:Hitems.
  - destruct (continuation obj) as [token|] eqn:Hcont.
    + split; [discriminate|].
      intros [H1|[(e & H1)|(o & H1 & [(e & H2)|H2])]].
      * contradiction.
      * discriminate.
      * injection H1 as <-. congruence.
      * injection H1 as <-. apply Hc in H2. discriminate.
    + split; [|reflexivity]. intros _. right. right.
      exists obj. split; [reflexivity|]. right. apply Hc. reflexivity.
  - split; [|reflexivity]. intros _. right. right.
    exists obj. split; [reflexivity|]. left. exists e. exact Hitems.
Qed.

(** C2: the loop of [runSearchRequest], and likewise that of
    [runListRequest], finishes exactly when an iteration raises (the URL
    cannot be formed, [requests.request] itself raises, the status is not
    200, the text does not deserialise, the list field cannot be iterated)
    or the server returns a response that deserialises to a page whose
    token is absent or null.  In particular such a page makes either loop
    finish. *)
Theorem pagination_terminates_iff w :
  (forall objectName cls listAttr,
     let g := runSearchRequest objectName cls listAttr in
     terminates g w <->
     ((exists n, raised_in (since w (snd (steps g n Created w))))
      \/ exists n, last_page_seen g (since w (snd (steps g n Created w)))))
  /\ (forall url cls id_,
       let g := runListRequest url cls id_ in
       terminates g w <->
       ((exists n, raised_in (since w (snd (steps g n Created w))))
        \/ exists n, last_page_seen g (since w (snd (steps g n Created w)))))
  /\ (forall (g : loop) n,
       last_page_seen g (since w (snd (steps g n Created w))) ->
       terminates g w).
Proof.
  split; [|split].
  - intros objectName cls listAttr g. apply terminates_iff.
  - intros url cls id_ g. apply terminates_iff.
  - intros g n Hlast. apply terminates_iff. right. exists n. exact Hlast.
Qed.

(** ** A refused request *)

(** C3: [_checkStatus] raises exactly when the status is not 200, and
    what it raises is an [Exception] whose message names the URL and the
    status code.  When that happens in the loop of a generator, the
    request was sent, the generator is finished, the counter is where it
    was, nothing more is ever yielded, and what was yielded before is
    still in the history. *)
Theorem status_other_than_200_aborts (g : loop) fullUrl w response s' :
  requests_request (net w) (outgoing g fullUrl w) = (Ok response, s') ->
  (forall w1,
     fst (_checkStatus response w1)
     = if status_code response =? requests_codes_ok then Ok tt
       else Raise (Exception (status_message response)))
  /\ (status_code response <> requests_codes_ok ->
      fst (fetch g fullUrl w) = Raise (Exception (status_message response))
      /\ exists w',
          step g (While fullUrl true) w = (Finished, w')
          /\ history w'
             = history w ++ [Sent (outgoing g fullUrl w); Received response;
                             Raised (Exception (status_message response))]
          /\ yielded (history w') = yielded (history w)
          /\ getBytesRead (self w') = getBytesRead (self w)
          /\ forall n, steps g n Finished w' = (Finished, w')).
Proof.
  intros Hrq. split.
  - intros w1. unfold _checkStatus. unfold_M.
    destruct (status_code response =? requests_codes_ok); reflexivity.
  - intros Hst. apply Z.eqb_neq in Hst. split.
    + unfold fetch. unfold outgoing in Hrq.
      rewrite (doRequest_unfold _ _ _ _ _ _ _ _ Hrq). cbn zeta.
      rewrite Hst. reflexivity.
    + rewrite (step_fetch _ _ _ _ _ Hrq). cbn zeta. rewrite Hst.
      eexists. split; [reflexivity|].
      cbn [fail log history with_stdout arrived with_net self].
      rewrite <- app_assoc, yielded_app. cbn [yielded flat_map app].
      rewrite app_nil_r.
      repeat split; try reflexivity. intros n. apply steps_Finished.
Qed.

End Facts.

(** ** The mock server at work *)

(** C1, on the mock: page 1 with token [abc], page 2 with a null token. *)
Lemma two_pages_are_concatenated :
  let g := Mock.search Mock.twoPages in
  let cls := Mock.anyObject Mock.twoPages Mock.bodies in
  let w := Mock.world Mock.twoPages (Mock.client 0 []) in
  session g Mock.searchUrl (self w) (net w) (protocolRequest w)
    [Mock.exchange1; Mock.exchange2]
  /\ listField cls "variants" (Mock.twoPages 0) = [PyInt 1; PyInt 2]
  /\ listField cls "variants" (Mock.twoPages 1) = [PyInt 3]
  /\ exists n w',
      steps g n Created w = (Finished, w')
      /\ history w'
         = history w ++ flat_map observed [Mock.exchange1; Mock.exchange2]
      /\ yielded (since w w') = [PyInt 1; PyInt 2; PyInt 3]
      /\ sent (since w w')
         = [ex_request Mock.exchange1; ex_request Mock.exchange2]
      /\ yielded (since w w')
         = listField cls "variants" (Mock.twoPages 0)
           ++ listField cls "variants" (Mock.twoPages 1).
Proof.
  intros g cls w.
  assert (Hpages : session g Mock.searchUrl (self w) (net w)
                     (protocolRequest w) [Mock.exchange1; Mock.exchange2]).
  { eapply (session_more g Mock.searchUrl (self w) (net w) (protocolRequest w)
              (Mock.twoPages 0) 1%nat Mock.object1 [PyInt 1; PyInt 2]
              (PyStr "abc") [Mock.exchange2]);
      [vm_compute; reflexivity..|].
    eapply (session_last g Mock.searchUrl (self w) 1%nat
              (<[ "pageToken" := PyStr "abc" ]> (protocolRequest w))
              (Mock.twoPages 1) 2%nat Mock.object2 [PyInt 3]);
      vm_compute; reflexivity. }
  split; [exact Hpages|].
  split; [vm_compute; reflexivity|]. split; [vm_compute; reflexivity|].
  destruct (runSearchRequest_concatenates "variants" cls "variants" w
              [Mock.exchange1; Mock.exchange2] Hpages)
    as (n & w' & Hrun & Hh & Hy & Hs & _ & Hfields).
  exists n, w'. split; [exact Hrun|]. split; [exact Hh|].
  split; [exact Hy|]. split; [exact Hs|].
  rewrite Hfields. cbn [map concat]. rewrite app_nil_r. reflexivity.
Defined.

(** C2, on the mock: over two pages the search finishes, and the null
    token of page 2 is a response that ends it. *)
Lemma two_pages_terminate :
  let g := Mock.search Mock.twoPages in
  let w := Mock.world Mock.twoPages (Mock.client 0 []) in
  last_page_seen g (since w (snd (steps g 6 Created w)))
  /\ terminates g w.
Proof.
  intros g w.
  assert (Hseen : last_page_seen g (since w (snd (steps g 6 Created w)))).
  { exists (Mock.twoPages 1), Mock.object2.
    split; [|split]; vm_compute; [|reflexivity..].
    right. right. right. right. right. left. reflexivity. }
  split; [exact Hseen|].
  exact (proj2 (proj2 (pagination_terminates_iff w)) g 6%nat Hseen).
Defined.

(** A server that refuses every request, with a body that carries a
    token: the search finishes (it raises on the first response), yet no
    response with an absent or null token ever arrives. *)
Lemma refused_run_finishes_without_last_page :
  let g := Mock.search Mock.alwaysRefused in
  let w := Mock.world Mock.alwaysRefused (Mock.client 0 []) in
  ~ (terminates g w <->
     exists n, last_page_seen g (since w (snd (steps g n Created w)))).
Proof.
  intros g w [Honly_if _].
  destruct Honly_if as (n & r & obj & Hin & Hparse & Hnone).
  { exists 2%nat. vm_compute. reflexivity. }
  assert (Hr : r = Mock.alwaysRefused 0).
  { destruct n as [|[|n]].
    - vm_compute in Hin. destruct Hin.
    - vm_compute in Hin. destruct Hin.
    - change (S (S n)) with (2 + n)%nat in Hin.
      rewrite steps_add in Hin.
      replace (fst (steps g 2 Created w)) with Finished in Hin
        by (vm_compute; reflexivity).
      rewrite steps_Finished in Hin. cbn [snd] in Hin.
      vm_compute in Hin.
      destruct Hin as [Hin|[Hin|[Hin|[]]]]; try discriminate.
      injection Hin as <-. vm_compute. reflexivity. }
  subst r. vm_compute in Hparse. injection Hparse as <-.
  vm_compute in Hnone. discriminate.
Qed.

(** Without network the search finishes as well: the one call of
    [requests.request] raises, nothing is received, and so no response
    with an absent or null token either. *)
Lemma offline_run_finishes_without_response :
  let g := Mock.offlineSearch in
  let w := Mock.offlineWorld in
  fst (steps g 2 Created w) = Finished
  /\ history (snd (steps g 2 Created w))
     = [Sent (outgoing g Mock.searchUrl w);
        Raised (RequestException "Connection refused")]
  /\ terminates g w
  /\ ~ exists n, last_page_seen g (since w (snd (steps g n Created w))).
Proof.
  intros g w.
  split; [vm_compute; reflexivity|].
  split; [vm_compute; reflexivity|].
  split; [exists 2%nat; vm_compute; reflexivity|].
  intros (n & r & obj & Hin & _).
  destruct n as [|[|n]].
  - vm_compute in Hin. destruct Hin.
  - vm_compute in Hin. destruct Hin.
  - change (S (S n)) with (2 + n)%nat in Hin.
    rewrite steps_add in Hin.
    replace (fst (steps g 2 Created w)) with Finished in Hin
      by (vm_compute; reflexivity).
    rewrite steps_Finished in Hin. cbn [snd] in Hin.
    vm_compute in Hin.
    destruct Hin as [Hin|[Hin|[]]]; discriminate.
Qed.

(** A 201 answer is a success status, and the search raises on it. *)
Lemma status_201_is_refused :
  let g := Mock.search Mock.created201 in
  let w := Mock.world Mock.created201 (Mock.client 0 []) in
  is_2xx (status_code (Mock.created201 0)) = true
  /\ fst (fetch g Mock.searchUrl w)
     = Raise (Exception
                "Url http://host/variants/search had status_code 201")
  /\ fst (steps g 2 Created w) = Finished
  /\ yielded (history (snd (steps g 2 Created w))) = [].
Proof. vm_compute. repeat split; reflexivity. Qed.

(** C3, on the mock: the server refuses the request for page 2; page 1
    was yielded and stays, and nothing follows it. *)
Lemma second_page_refused :
  let g := Mock.search Mock.refusedAfterOne in
  let r := steps g 5 Created
             (Mock.world Mock.refusedAfterOne (Mock.client 0 [])) in
  let w := snd r in
  fst r = While Mock.searchUrl true
  /\ yielded (history w) = [PyInt 1; PyInt 2]
  /\ requests_request (net w) (outgoing g Mock.searchUrl w)
     = (Ok (Mock.refusedAfterOne 1), 2%nat)
  /\ fst (fetch g Mock.searchUrl w)
     = Raise (Exception
                "Url http://host/variants/search had status_code 500")
  /\ exists w',
      step g (While Mock.searchUrl true) w = (Finished, w')
      /\ history w'
         = history w ++ [Sent (outgoing g Mock.searchUrl w);
                         Received (Mock.refusedAfterOne 1);
                         Raised (Exception (status_message
                                              (Mock.refusedAfterOne 1)))]
      /\ yielded (history w') = yielded (history w)
      /\ getBytesRead (self w') = getBytesRead (self w)
      /\ forall n, steps g n Finished w' = (Finished, w').
Proof.
  intros g r w.
  split; [vm_compute; reflexivity|].
  split; [vm_compute; reflexivity|].
  split; [vm_compute; reflexivity|].
  refine (proj2 (status_other_than_200_aborts g Mock.searchUrl w
                   (Mock.refusedAfterOne 1) 2%nat _) _).
  - vm_compute. reflexivity.
  - vm_compute. discriminate.
Defined.

(** C4, on the mock: a page without the attribute and a page with a null
    token, each with one item still to be yielded. *)
Lemma absent_and_null_token_end_alike :
  let g := Mock.search Mock.twoPages in
  let w := Mock.world Mock.twoPages (Mock.client 0 []) in
  let r1 := steps g 3 (Page Mock.searchUrl Mock.object3 [PyInt 4]) w in
  let r2 := steps g 3 (Page Mock.searchUrl Mock.object2 [PyInt 4]) w in
  Mock.object3 !! "nextPageToken" = None
  /\ Mock.object2 !! "nextPageToken" = Some PyNone
  /\ fst r1 = Finished /\ fst r2 = Finished
  /\ history (snd r1) = history w ++ map Yielded [PyInt 4]
  /\ history (snd r2) = history w ++ map Yielded [PyInt 4]
  /\ sent (since w (snd r1)) = [] /\ sent (since w (snd r2)) = []
  /\ net (snd r1) = net w /\ net (snd r2) = net w
  /\ self (snd r1) = self (snd r2)
  /\ stdout (snd r1) = stdout (snd r2).
Proof.
  intros g w r1 r2.
  split; [vm_compute; reflexivity|].
  split; [vm_compute; reflexivity|].
  apply (absent_token_like_null_token g Mock.searchUrl Mock.object3
           Mock.object2 [PyInt 4] w); vm_compute; reflexivity.
Defined.


(** C10, on the mock: a 200 answer whose text is not JSON. *)
Lemma garbled_body_is_counted :
  let cls := Mock.anyObject Mock.garbled Mock.bodies in
  let w := Mock.world Mock.garbled (Mock.client 0 []) in
  let r := _doRequest "GET" "http://host/references/1" cls ∅ None w in
  fromJsonString cls (text (Mock.garbled 0)) = Raise ValueError
  /\ fst r = Raise ValueError
  /\ getBytesRead (self (snd r)) = getBytesRead (self w) + 6.
Proof.
  intros cls w r.
  split; [vm_compute; reflexivity|].
  apply (bytes_counted_before_parse "GET" "http://host/references/1" cls
           ∅ None w (Mock.garbled 0) 1%nat ValueError);
    vm_compute; reflexivity.
Defined.

(** C7: a body with a letter outside ASCII.  The response passes the
    status check and deserialises; its body is six bytes long, its text
    five code points, and the counter moves by five. *)
Theorem bytes_read_counts_code_points :
  let g := Mock.search Mock.accented in
  let w := Mock.world Mock.accented (Mock.client 0 []) in
  let r := steps g 5 Created w in
  let response := Mock.accented 0 in
  fst r = Finished
  /\ yielded (history (snd r)) = [PyInt 4]
  /\ status_code response = requests_codes_ok
  /\ content response = utf8_encode (text response)
  /\ Z.of_nat (length (content response)) = 6
  /\ len (text response) = 5
  /\ getBytesRead (self w) = 0
  /\ getBytesRead (self (snd r)) = 5.
Proof. vm_compute. repeat split; reflexivity. Qed.

(** ** The simulated variant set *)

Section SimulatorFacts.
Import Simulator.
Variable rng : sampler.

Lemma getVariants_dense vs refName startPosition endPosition :
  (1 ≤ _variantDensity vs)%Qc ->
  getVariants rng vs refName startPosition endPosition
  = map (generateVariant rng vs refName)
      (seqZ startPosition (endPosition - startPosition)).
Proof.
  intros Hd. unfold getVariants.
  induction (seqZ startPosition (endPosition - startPosition))
    as [|position l IH]; [reflexivity|].
  cbn [flat_map map]. rewrite IH. unfold hasVariant.
  rewrite (bool_decide_eq_true_2 _ Hd). reflexivity.
Qed.

(** C8: with density 1 the half-open range [startPosition, endPosition)
    yields [endPosition - startPosition] records, the k-th of which
    starts at position [startPosition + k]. *)
Theorem one_record_per_position vs refName startPosition endPosition :
  _variantDensity vs = 1%Qc ->
  startPosition <= endPosition ->
  let records := getVariants rng vs refName startPosition endPosition in
  Z.of_nat (length records) = endPosition - startPosition
  /\ map start records = seqZ startPosition (endPosition - startPosition).
Proof.
  intros Hd Hrange records. unfold records.
  rewrite getVariants_dense by (rewrite Hd; reflexivity).
  rewrite length_map, length_seqZ, map_map. split; [lia|].
  apply map_id.
Qed.

Lemma timeless_generateVariant now1 now2 datasetId localId randomSeed numCalls
    variantDensity refName position :
  timeless (generateVariant rng
              (construct now1 datasetId localId randomSeed numCalls
                 variantDensity) refName position)
  = timeless (generateVariant rng
                (construct now2 datasetId localId randomSeed numCalls
                   variantDensity) refName position).
Proof. reflexivity. Qed.

Lemma getVariants_stamped vs refName startPosition endPosition :
  Forall (fun v => created v = _creationTime vs
                   /\ updated v = _updatedTime vs)
    (getVariants rng vs refName startPosition endPosition).
Proof.
  unfold getVariants.
  induction (seqZ startPosition (endPosition - startPosition))
    as [|position l IH]; [constructor|].
  cbn [flat_map]. destruct (hasVariant rng vs position); [|exact IH].
  constructor; [split; reflexivity|exact IH].
Qed.

(** C5: two generators constructed with the same seed, call count and
    density (at least one), at different times, and asked for the same
    reference name and range, return lists that are equal once the two
    timestamps of each record are blanked; and in every record the two
    timestamps are equal. *)
Theorem simulated_variants_deterministic now1 now2 datasetId localId
    randomSeed numCalls variantDensity refName startPosition endPosition :
  (1 ≤ variantDensity)%Qc ->
  let one := construct now1 datasetId localId randomSeed numCalls
               variantDensity in
  let two := construct now2 datasetId localId randomSeed numCalls
               variantDensity in
  let listOne := getVariants rng one refName startPosition endPosition in
  let listTwo := getVariants rng two refName startPosition endPosition in
  map timeless listOne = map timeless listTwo
  /\ Forall (fun v => created v = updated v) listOne
  /\ Forall (fun v => created v = updated v) listTwo.
Proof.
  intros Hd one two listOne listTwo. split; [|split].
  - unfold listOne, listTwo.
    rewrite !getVariants_dense by exact Hd. rewrite !map_map.
    apply map_ext. intros position. apply timeless_generateVariant.
  - pose proof (getVariants_stamped one refName startPosition endPosition)
      as Hs.
    induction Hs as [|v l [Hc Hu] _ IH]; constructor; [|exact IH].
    rewrite Hc, Hu. reflexivity.
  - pose proof (getVariants_stamped two refName startPosition endPosition)
      as Hs.
    induction Hs as [|v l [Hc Hu] _ IH]; constructor; [|exact IH].
    rewrite Hc, Hu. reflexivity.
Qed.

End SimulatorFacts.

(** C8, on the parameters of the test: seed 0, two calls, density 1, the
    range from 100 to 103. *)
Lemma three_positions_three_records :
  let vs := Simulator.construct 5 "dataset1" "variantSet1" 0 2 1%Qc in
  let records := Simulator.getVariants Simulator.modular vs "ref" 100 103 in
  Simulator._variantDensity vs = 1%Qc
  /\ 100 <= 103
  /\ Z.of_nat (length records) = 103 - 100
  /\ map Simulator.start records = seqZ 100 (103 - 100).
Proof.
  intros vs records.
  split; [reflexivity|]. split; [lia|].
  apply (one_record_per_position Simulator.modular vs "ref" 100 103);
    [reflexivity|lia].
Defined.

(** C5, on the parameters of the test, with two generators built at
    times 5 and 9. *)
Lemma two_generators_agree :
  let one := Simulator.construct 5 "dataset1" "variantSet1" 0 2 1%Qc in
  let two := Simulator.construct 9 "dataset1" "variantSet1" 0 2 1%Qc in
  let listOne := Simulator.getVariants Simulator.modular one "ref" 100 103 in
  let listTwo := Simulator.getVariants Simulator.modular two "ref" 100 103 in
  (1 ≤ 1)%Qc
  /\ map Simulator.timeless listOne = map Simulator.timeless listTwo
  /\ Forall (fun v => Simulator.created v = Simulator.updated v) listOne
  /\ Forall (fun v => Simulator.created v = Simulator.updated v) listTwo.
Proof.
  intros one two listOne listTwo.
  assert (Hd : (1 ≤ 1)%Qc) by reflexivity.
  split; [exact Hd|].
  exact (simulated_variants_deterministic Simulator.modular 5 9 "dataset1"
           "variantSet1" 0 2%nat 1%Qc "ref" 100 103 Hd).
Defined.

(** * Further properties of the client *)

Section MoreFacts.
Context `{!Library}.

Implicit Types (w : World) (response : HttpResponse) (cls : ProtocolClass).

Lemma set_bytesRead_same (c : HttpClient) :
  set_bytesRead c (_bytesRead c) = c.
Proof. destruct c. reflexivity. Qed.

Lemma set_bytesRead_twice (c : HttpClient) (a b : Z) :
  set_bytesRead (set_bytesRead c a) b = set_bytesRead c b.
Proof. reflexivity. Qed.

(** Everything one iteration of the loop does to the world. *)
Lemma step_fetch_effects (g : loop) fullUrl w response s' :
  requests_request (net w) (outgoing g fullUrl w) = (Ok response, s') ->
  let f' := fst (step g (While fullUrl true) w) in
  let w' := snd (step g (While fullUrl true) w) in
  (exists tail,
      history w'
      = history w ++ Sent (outgoing g fullUrl w) :: Received response :: tail
      /\ ((tail = [] /\ exists responseObject items,
                          f' = Page fullUrl responseObject items
                          /\ page_of (responseClass g) response
                             = Some responseObject
                          /\ yields g responseObject = Ok items)
          \/ (exists e, tail = [Raised e] /\ f' = Finished
                        /\ continues g response = false)))
  /\ protocolRequest w' = protocolRequest w
  /\ net w' = s'
  /\ self w'
     = set_bytesRead (self w)
         (_bytesRead (self w)
          + if status_code response =? requests_codes_ok
            then len (text response) else 0)
  /\ (_debugLevel (self w) <= 1 ->
      stdout w'
      = stdout w ++ if status_code response =? requests_codes_ok
                    then [] else [text response]).
Proof.
  intros Hrq f' w'. unfold f', w'. clear f' w'.
  rewrite (step_fetch _ _ _ _ _ Hrq). cbn zeta.
  set (rq := outgoing g fullUrl w).
  destruct (status_code response =? requests_codes_ok) eqn:Hst.
  - destruct (deserialize_world response (responseClass g)
                (arrived w rq response s')) as (Hs & Hp & Hn & Hh).
    pose proof (deserialize_quiet response (responseClass g)
                  (arrived w rq response s')) as Hq.
    set (w2 := snd (_deserializeResponse response (responseClass g)
                      (arrived w rq response s'))) in *.
    cbn [arrived log with_net history self protocolRequest net stdout]
      in Hs, Hp, Hn, Hh, Hq.
    destruct (fromJsonString (responseClass g) (text response))
      as [obj|e] eqn:Hparse;
      [destruct (yields g obj) as [items|e] eqn:Hitems|];
      cbn [fst snd fail log history self protocolRequest net stdout].
    + split; [|repeat split; try assumption; intros Hd;
                rewrite (Hq Hd), app_nil_r; reflexivity].
      exists []. split; [exact Hh|]. left. split; [reflexivity|].
      exists obj, items. unfold page_of. rewrite Hst, Hparse.
      split; [reflexivity|split; [reflexivity|exact Hitems]].
    + split; [|repeat split; try assumption; intros Hd;
                rewrite (Hq Hd), app_nil_r; reflexivity].
      exists [Raised e]. split; [rewrite Hh, <- app_assoc; reflexivity|].
      right. exists e. repeat split.
      unfold continues, page_of. rewrite Hst, Hparse. cbn. rewrite Hitems.
      reflexivity.
    + split; [|repeat split; try assumption; intros Hd;
                rewrite (Hq Hd), app_nil_r; reflexivity].
      exists [Raised e]. split; [rewrite Hh, <- app_assoc; reflexivity|].
      right. exists e. repeat split.
      unfold continues, page_of. rewrite Hst, Hparse. reflexivity.
  - cbn [fst snd fail log history self protocolRequest net stdout
         with_stdout arrived with_net].
    split; [|repeat split; try reflexivity].
    + exists [Raised (Exception (status_message response))].
      split; [rewrite <- app_assoc; reflexivity|].
      right. eexists. repeat split.
      unfold continues, page_of. rewrite Hst. reflexivity.
    + rewrite Z.add_0_r, set_bytesRead_same. reflexivity.
Qed.

(** An invariant of single steps is an invariant of runs. *)
Lemma steps_preserve (g : loop) (P : frame -> World -> Prop) :
  (forall f w, P f w -> P (fst (step g f w)) (snd (step g f w))) ->
  forall n f w, P f w -> P (fst (steps g n f w)) (snd (steps g n f w)).
Proof.
  intros Hstep n. induction n as [|n IH]; intros f w HP; [exact HP|].
  rewrite steps_S. apply IH, Hstep, HP.
Qed.

(** ** What a run leaves alone *)

Lemma step_keeps (g : loop) f w :
  (exists b, self (snd (step g f w)) = set_bytesRead (self w) b)
  /\ (forall k, k <> "pageToken" ->
         protocolRequest (snd (step g f w)) !! k = protocolRequest w !! k).
Proof.
  destruct f as [|fullUrl [|]|fullUrl obj [|x rest]|].
  - cbn. destruct (makeUrl g (self w)); cbn;
      (split; [exists (_bytesRead (self w)); symmetry;
               apply set_bytesRead_same|reflexivity]).
  - destruct (requests_request (net w) (outgoing g fullUrl w))
      as [[response|e] s'] eqn:Hrq.
    + destruct (step_fetch_effects g fullUrl w response s' Hrq)
        as (_ & Hp & _ & Hs & _).
      split; [eexists; exact Hs|]. intros k _. rewrite Hp. reflexivity.
    + rewrite (step_fetch_failed _ _ _ _ _ Hrq).
      cbn [snd log with_net self protocolRequest].
      split; [exists (_bytesRead (self w)); symmetry;
              apply set_bytesRead_same|reflexivity].
  - cbn. split; [exists (_bytesRead (self w)); symmetry;
                 apply set_bytesRead_same|reflexivity].
  - cbn. unfold _updateNotDone.
    destruct (obj !! "nextPageToken") as [token|]; cbn;
      (split; [exists (_bytesRead (self w)); symmetry;
               apply set_bytesRead_same|]); [|reflexivity].
    intros k Hk. apply lookup_insert_ne. congruence.
  - cbn. split; [exists (_bytesRead (self w)); symmetry;
                 apply set_bytesRead_same|reflexivity].
  - cbn. split; [exists (_bytesRead (self w)); symmetry;
                 apply set_bytesRead_same|reflexivity].
Qed.

Lemma steps_keep (g : loop) n f w :
  (exists b, self (snd (steps g n f w)) = set_bytesRead (self w) b)
  /\ (forall k, k <> "pageToken" ->
         protocolRequest (snd (steps g n f w)) !! k = protocolRequest w !! k).
Proof.
  apply (steps_preserve g
           (fun _ w' =>
              (exists b, self w' = set_bytesRead (self w) b)
              /\ (forall k, k <> "pageToken" ->
                     protocolRequest w' !! k = protocolRequest w !! k))).
  - intros f1 w1 [(b & Hs) Hp].
    destruct (step_keeps g f1 w1) as [(b' & Hs') Hp'].
    split.
    + exists b'. rewrite Hs', Hs. reflexivity.
    + intros k Hk. rewrite (Hp' k Hk). apply Hp, Hk.
  - split; [exists (_bytesRead (self w)); symmetry;
            apply set_bytesRead_same|reflexivity].
Qed.

(** X3: however far a generator runs, the client keeps its URL prefix, debug
    level, workarounds and key: the byte counter is the only attribute of
    [self] that a run assigns. *)
Theorem run_keeps_client_settings (g : loop) n f w :
  let w' := snd (steps g n f w) in
  _urlPrefix (self w') = _urlPrefix (self w)
  /\ _debugLevel (self w') = _debugLevel (self w)
  /\ _workarounds (self w') = _workarounds (self w)
  /\ _key (self w') = _key (self w)
  /\ _getAuth (self w') = _getAuth (self w).
Proof.
  intros w'. destruct (steps_keep g n f w) as [(b & Hs) _].
  unfold w'. rewrite Hs. repeat split; reflexivity.
Qed.

(** X2: the only attribute of the caller's request object a run assigns is
    [pageToken]. *)
Theorem run_assigns_only_pageToken (g : loop) n f w (k : string) :
  k <> "pageToken" ->
  protocolRequest (snd (steps g n f w)) !! k = protocolRequest w !! k.
Proof. intros Hk. apply (steps_keep g n f w), Hk. Qed.

(** ** The requests of a run *)

Lemma sent_tail (rq : HttpRequest) response (tail : list event) :
  tail = [] \/ (exists e, tail = [Raised e]) ->
  sent (Sent rq :: Received response :: tail) = [rq].
Proof. intros [->|(e & ->)]; reflexivity. Qed.

(** X1: after a page with a token, whatever the token is as long as it is not
    [None], the next request is built from the request object with that
    very token as its [pageToken], and it is the only request sent. *)
Theorem token_carried_into_next_request (g : loop) fullUrl
    (responseObject : PyObject) (token : pyval) w :
  continuation responseObject = Some token ->
  let next := <[ "pageToken" := token ]> (protocolRequest w) in
  sent (since w (snd (steps g 2 (Page fullUrl responseObject []) w)))
  = [requestOf (httpMethod g) fullUrl (self w) (httpParams g next)
       (httpData g next)].
Proof.
  intros Hc next.
  rewrite steps_S, (step_next_page g fullUrl responseObject token w Hc).
  cbn [fst snd]. fold next.
  set (w1 := with_protocolRequest w next).
  rewrite steps_S. cbn [steps].
  destruct (step g (While fullUrl true) w1) as [f2 w2] eqn:Hstep.
  destruct (requests_request (net w1) (outgoing g fullUrl w1))
    as [[response|e] s'] eqn:Hrq.
  - destruct (step_fetch_effects g fullUrl w1 response s' Hrq)
      as ((tail & Hh & Htail) & _).
    rewrite Hstep in Hh, Htail. cbn [fst snd] in *.
    rewrite (since_app w w2 _ Hh). apply sent_tail.
    destruct Htail as [[-> _]|(e & -> & _)]; [left|right; exists e];
      reflexivity.
  - rewrite (step_fetch_failed _ _ _ _ _ Hrq) in Hstep.
    injection Hstep as _ <-.
    rewrite (since_app w _ [Sent (outgoing g fullUrl w1); Raised e]);
      [reflexivity|].
    cbn [fst snd log history with_net]. unfold w1.
    cbn [with_protocolRequest history]. rewrite <- app_assoc. reflexivity.
Qed.




(** ** The list form *)

Lemma session_list_items url cls id_ fullUrl c s protocolRequest0 pages :
  session (runListRequest url cls id_) fullUrl c s protocolRequest0 pages ->
  Forall (fun x => exists responseObject,
                     page_of cls (ex_response x) = Some responseObject
                     /\ ex_items x = [PyObj responseObject]) pages.
Proof.
  induction 1 as [s rq0 response s' obj items Hrq Hpage Hitems Hlast
                 |s rq0 response s' obj items token rest Hrq Hpage Hitems Hmore
                    Hrest IH];
    cbn in Hitems; injection Hitems as <-.
  - constructor; [|constructor].
    exists obj. split; [exact Hpage|reflexivity].
  - constructor; [|exact IH].
    exists obj. split; [exact Hpage|reflexivity].
Qed.

(** X6: over good pages ending in one without token, [runListRequest]
    finishes after one request per page, and what it yields for a page is
    the one response object the page deserialises to, whole. *)
Theorem runListRequest_yields_each_page url cls id_ w fullUrl
    (pages : list exchange) :
  let g := runListRequest url cls id_ in
  str_format (posixpath_join (_urlPrefix (self w)) url) [("id", id_)]
    = Ok fullUrl ->
  session g fullUrl (self w) (net w) (protocolRequest w) pages ->
  exists n w',
    steps g n Created w = (Finished, w')
    /\ history w' = history w ++ flat_map observed pages
    /\ sent (since w w') = map ex_request pages
    /\ yielded (since w w') = concat (map ex_items pages)
    /\ Forall (fun x => exists responseObject,
                          page_of cls (ex_response x) = Some responseObject
                          /\ ex_items x = [PyObj responseObject]) pages.
Proof.
  intros g Hurl Hpages.
  destruct (steps_session g fullUrl (self w) _ _ pages Hpages w
              eq_refl eq_refl eq_refl) as (n & w' & Hrun & Hh).
  exists (S n), w'. split; [|split; [exact Hh|]].
  - rewrite steps_S. cbn [step g runListRequest makeUrl].
    rewrite Hurl. exact Hrun.
  - rewrite (since_app w w' _ Hh), yielded_observed, sent_observed.
    repeat split. exact (session_list_items _ _ _ _ _ _ _ _ Hpages).
Qed.

Lemma posixpath_join_relative (prefix t : string) :
  startswith_slash t = false ->
  posixpath_join prefix t = separated prefix +:+ t.
Proof.
  intros Hrel. unfold posixpath_join, separated. rewrite Hrel.
  destruct (String.eqb prefix "" || endswith_slash prefix);
    [reflexivity|]. symmetry. apply append_assoc.
Qed.

Lemma nobrace_separated (prefix : string) :
  nobrace prefix = true -> nobrace (separated prefix) = true.
Proof.
  intros Hnb. unfold separated.
  destruct (String.eqb prefix "" || endswith_slash prefix); [exact Hnb|].
  rewrite nobrace_app, Hnb. reflexivity.
Qed.

(** X7: [listReferenceBases] asks [<prefix>/references/<id>/bases]: the
    identifier is put in as it is, braces and all, and only the prefix
    must be free of braces for that. *)
Theorem listReferenceBases_url (protocol : Protocol) (id_ : string) w :
  nobrace (_urlPrefix (self w)) = true ->
  steps (listReferenceBases protocol id_) 1 Created w
  = (While (separated (_urlPrefix (self w))
            +:+ "references/" +:+ id_ +:+ "/bases") true, w).
Proof.
  intros Hnb. cbn [steps step listReferenceBases runListRequest makeUrl].
  rewrite posixpath_join_relative by reflexivity.
  unfold str_format.
  rewrite (format_go_nobrace _ _ _ (nobrace_separated _ Hnb)).
  reflexivity.
Qed.

(** ** Exceptions *)

(** X8: whatever exception a generator raises (a refused request, a text that
    does not deserialise, a list field that cannot be iterated, a URL that
    cannot be formed), it is finished from then on: no later step changes
    anything, so nothing more is sent or yielded. *)
Theorem raised_means_finished (g : loop) w n (e : exn) :
  In (Raised e) (since w (snd (steps g n Created w))) ->
  fst (steps g n Created w) = Finished
  /\ forall m, steps g (n + m) Created w = steps g n Created w.
Proof.
  intros Hin.
  set (P := fun (f : frame) (w' : World) =>
    exists es,
      history w' = history w ++ es
      /\ (f <> Finished -> forall e', ~ In (Raised e') es)).
  assert (Hstep : forall f w', P f w' ->
                    P (fst (step g f w')) (snd (step g f w'))).
  { intros f w1 (es & Hh & Hnone).
    destruct f as [|fullUrl [|]|fullUrl obj [|x rest]|].
    - cbn. destruct (makeUrl g (self w1)); cbn.
      + exists es. split; [exact Hh|]. intros _. apply Hnone. discriminate.
      + exists (es ++ [Raised e0]). cbn [log history].
        rewrite Hh, <- app_assoc. split; [reflexivity|]. congruence.
    - destruct (requests_request (net w1) (outgoing g fullUrl w1))
        as [[response|e0] s'] eqn:Hrq.
      2:{ rewrite (step_fetch_failed _ _ _ _ _ Hrq).
          exists (es ++ [Sent (outgoing g fullUrl w1); Raised e0]).
          cbn [fst snd log history with_net].
          split; [rewrite Hh, <- !app_assoc; reflexivity|congruence]. }
      destruct (step_fetch_effects g fullUrl w1 response s' Hrq)
        as ((tail & Hh' & Htail) & _).
      exists (es ++ Sent (outgoing g fullUrl w1) :: Received response :: tail).
      split; [rewrite Hh', Hh, <- app_assoc; reflexivity|].
      destruct Htail as [(-> & _)|(e1 & _ & -> & _)]; [|congruence].
      intros _ e' Hin'. apply in_app_or in Hin' as [Hin'|[Hin'|[Hin'|[]]]];
        try discriminate.
      exact (Hnone ltac:(discriminate) e' Hin').
    - cbn. exists es. split; [exact Hh|]. congruence.
    - cbn. unfold _updateNotDone.
      destruct (obj !! "nextPageToken"); cbn; exists es;
        (split; [exact Hh|]); intros _; apply Hnone; discriminate.
    - exists (es ++ [Yielded x]). cbn [step fst snd log history].
      rewrite Hh, <- app_assoc. split; [reflexivity|].
      intros _ e' Hin'. apply in_app_or in Hin' as [Hin'|[Hin'|[]]];
        [|discriminate].
      exact (Hnone ltac:(discriminate) e' Hin').
    - cbn. exists es. split; [exact Hh|]. congruence. }
  assert (Hstart : P Created w).
  { exists []. rewrite app_nil_r. split; [reflexivity|]. intros _ e' []. }
  destruct (steps_preserve g P Hstep n Created w Hstart) as (es & Hh & Hnone).
  rewrite (since_app _ _ _ Hh) in Hin.
  assert (Hfin : fst (steps g n Created w) = Finished).
  { destruct (fst (steps g n Created w)) eqn:Hf; try reflexivity;
      exfalso; exact (Hnone ltac:(discriminate) e Hin). }
  split; [exact Hfin|].
  intros m. rewrite steps_add, Hfin, steps_Finished.
  rewrite <- Hfin. destruct (steps g n Created w); reflexivity.
Qed.

(** ** The standard output *)

Lemma refused_bodies_app es1 es2 :
  refused_bodies (es1 ++ es2) = refused_bodies es1 ++ refused_bodies es2.
Proof. apply flat_map_app. Qed.

(** X9: a client whose debug level is at most 1 prints nothing but the text
    of the responses that failed the status check, in the order in which
    they arrived. *)
Theorem quiet_client_prints_refusals (g : loop) n f w :
  _debugLevel (self w) <= 1 ->
  stdout (snd (steps g n f w))
  = stdout w ++ refused_bodies (since w (snd (steps g n f w))).
Proof.
  intros Hd.
  set (P := fun (f' : frame) (w' : World) =>
    exists es,
      history w' = history w ++ es
      /\ stdout w' = stdout w ++ refused_bodies es
      /\ _debugLevel (self w') <= 1).
  assert (Hstep : forall f' w', P f' w' ->
                    P (fst (step g f' w')) (snd (step g f' w'))).
  { intros f1 w1 (es & Hh & Hout & Hd1).
    destruct (step_keeps g f1 w1) as [(b & Hs) _].
    assert (Hd2 : _debugLevel (self (snd (step g f1 w1))) <= 1)
      by (rewrite Hs; exact Hd1).
    destruct f1 as [|fullUrl [|]|fullUrl obj [|x rest]|].
    - cbn in *. destruct (makeUrl g (self w1)); cbn in *.
      + exists es. repeat split; assumption.
      + exists (es ++ [Raised e]). cbn [log history stdout].
        rewrite Hh, <- app_assoc, refused_bodies_app, app_nil_r.
        repeat split; assumption.
    - destruct (requests_request (net w1) (outgoing g fullUrl w1))
        as [[response|e0] s'] eqn:Hrq.
      2:{ rewrite (step_fetch_failed _ _ _ _ _ Hrq) in *.
          exists (es ++ [Sent (outgoing g fullUrl w1); Raised e0]).
          cbn [fst snd log history with_net stdout self] in *.
          split; [rewrite Hh, <- !app_assoc; reflexivity|].
          split; [|exact Hd2].
          rewrite refused_bodies_app, app_nil_r. exact Hout. }
      destruct (step_fetch_effects g fullUrl w1 response s' Hrq)
        as ((tail & Hh' & Htail) & _ & _ & _ & Hout').
      exists (es ++ Sent (outgoing g fullUrl w1) :: Received response :: tail).
      split; [rewrite Hh', Hh, <- app_assoc; reflexivity|].
      split; [|exact Hd2].
      rewrite (Hout' Hd1), Hout, refused_bodies_app, <- app_assoc.
      f_equal. cbn [refused_bodies flat_map app].
      destruct Htail as [(-> & _)|(e1 & -> & _)]; cbn;
        rewrite ?app_nil_r; reflexivity.
    - cbn in *. exists es. repeat split; assumption.
    - cbn in *. unfold _updateNotDone in *.
      destruct (obj !! "nextPageToken"); cbn in *; exists es;
        repeat split; assumption.
    - exists (es ++ [Yielded x]). cbn [step fst snd log history stdout self].
      rewrite Hh, <- app_assoc, refused_bodies_app, app_nil_r.
      repeat split; assumption.
    - cbn in *. exists es. repeat split; assumption. }
  assert (Hstart : P f w).
  { exists []. cbn [refused_bodies flat_map]. rewrite !app_nil_r.
    repeat split; try reflexivity. exact Hd. }
  destruct (steps_preserve g P Hstep n f w Hstart) as (es & Hh & Hout & _).
  rewrite (since_app _ _ _ Hh). exact Hout.
Qed.

(** ** No page limit *)

(** X10: the loop has no bound of its own: against a server that answers
    every request, and always with a response after which the loop goes
    on, a generator that could form its URL never finishes. *)
Theorem endless_tokens_never_finish (g : loop) w fullUrl :
  makeUrl g (self w) = Ok fullUrl ->
  (forall s rq, exists response s',
      requests_request s rq = (Ok response, s')
      /\ continues g response = true) ->
  forall n, fst (steps g n Created w) <> Finished.
Proof.
  intros Hurl Hserver n.
  set (P := fun (f : frame) (w' : World) =>
    match f with
    | Created => self w' = self w
    | While _ notDone => notDone = true
    | Page _ responseObject _ => continuation responseObject <> None
    | Finished => False
    end).
  assert (Hstep : forall f w', P f w' ->
                    P (fst (step g f w')) (snd (step g f w'))).
  { intros f w1 HP.
    destruct f as [|url [|]|url obj [|x rest]|]; cbn in HP.
    - cbn. rewrite HP, Hurl. reflexivity.
    - destruct (Hserver (net w1) (outgoing g url w1))
        as (response & s' & Hrq & Hgo).
      destruct (step_fetch_effects g url w1 response s' Hrq)
        as ((tail & _ & Htail) & _).
      destruct Htail as [(_ & o & items & -> & Hpage & Hitems)
                        |(e & _ & _ & Hstop)];
        [|congruence].
      cbn. unfold continues in Hgo. rewrite Hpage, Hitems in Hgo.
      destruct (continuation o); [discriminate|discriminate Hgo].
    - discriminate HP.
    - destruct (continuation obj) as [token|] eqn:Hc; [|congruence].
      rewrite (step_next_page g url obj token w1 Hc). reflexivity.
    - exact HP.
    - destruct HP. }
  pose proof (steps_preserve g P Hstep n Created w eq_refl) as HP.
  intros Hfin. rewrite Hfin in HP. exact HP.
Qed.

(** ** A page without its list field *)

(** X11: when a response passes the status check and deserialises, but the
    object has no attribute named by [listAttr], the search raises
    [AttributeError] after the request was sent and the text counted; it
    yields nothing and leaves the request object as it was. *)
Theorem missing_list_field_raises objectName cls listAttr fullUrl w
    response s' (responseObject : PyObject) :
  let g := runSearchRequest objectName cls listAttr in
  requests_request (net w) (outgoing g fullUrl w) = (Ok response, s') ->
  page_of cls response = Some responseObject ->
  responseObject !! listAttr = None ->
  exists w',
    step g (While fullUrl true) w = (Finished, w')
    /\ history w'
       = history w ++ [Sent (outgoing g fullUrl w); Received response;
                       Raised (AttributeError listAttr)]
    /\ getBytesRead (self w')
       = getBytesRead (self w) + len (text response)
    /\ protocolRequest w' = protocolRequest w.
Proof.
  intros g Hrq Hpage Hnone.
  apply page_of_Some in Hpage as [Hst Hparse].
  rewrite (step_fetch _ _ _ _ _ Hrq). cbn zeta.
  cbn [g runSearchRequest responseClass yields].
  rewrite Hst, Hparse. unfold listItems. rewrite Hnone.
  destruct (deserialize_world response cls
              (arrived w (outgoing g fullUrl w) response s'))
    as (Hs & Hp & _ & Hh).
  eexists. split; [reflexivity|].
  cbn [fail log history self protocolRequest].
  fold g. rewrite Hs, Hp, Hh. cbn [arrived log history with_net].
  rewrite <- app_assoc. repeat split; reflexivity.
Qed.

(** ** The getter and the counter *)

(** X12: whatever comes back, [_doRequest] sends exactly one request, and the
    counter moves by [len] of the text when the status is 200, whether or
    not the text then deserialises, and stays where it was otherwise. *)
Theorem doRequest_counts m fullUrl cls (p : gmap string pyval)
    (d : option unicode) w response s' :
  requests_request (net w) (requestOf m fullUrl (self w) p d)
    = (Ok response, s') ->
  let w' := snd (_doRequest m fullUrl cls p d w) in
  sent (since w w') = [requestOf m fullUrl (self w) p d]
  /\ getBytesRead (self w')
     = getBytesRead (self w)
       + if status_code response =? requests_codes_ok
         then len (text response) else 0.
Proof.
  intros Hrq w'. unfold w'.
  rewrite (doRequest_unfold _ _ _ _ _ _ _ _ Hrq). cbn zeta.
  set (rq := requestOf m fullUrl (self w) p d).
  destruct (status_code response =? requests_codes_ok).
  - destruct (deserialize_world response cls (arrived w rq response s'))
      as (Hs & _ & _ & Hh).
    rewrite (since_app w _ [Sent rq; Received response]) by exact Hh.
    rewrite Hs. split; reflexivity.
  - cbn [snd]. rewrite (since_app w _ [Sent rq; Received response])
      by reflexivity.
    split; [reflexivity|]. cbn. unfold getBytesRead. lia.
Qed.

(** X13: a refused get is not a silent empty result: with a status other than
    200, [runGetRequest] raises the [Exception] naming URL and status,
    after sending its one request and printing the body; the counter and
    the client stay as they were. *)
Theorem getter_refused objectName cls id_ w response s' :
  nobrace (_urlPrefix (self w)) = true ->
  requests_request (net w)
    (requestOf "GET" (resourceUrl (_urlPrefix (self w)) objectName id_)
       (self w) ∅ None) = (Ok response, s') ->
  status_code response <> requests_codes_ok ->
  let r := runGetRequest objectName cls id_ w in
  fst r = Raise (Exception (status_message response))
  /\ sent (since w (snd r))
     = [requestOf "GET" (resourceUrl (_urlPrefix (self w)) objectName id_)
          (self w) ∅ None]
  /\ self (snd r) = self w
  /\ stdout (snd r) = stdout w ++ [text response].
Proof.
  intros Hnb Hrq Hst r. unfold r, runGetRequest.
  unfold mbind, M_bind, get_self, lift. cbn beta iota.
  rewrite (getUrl_format _ objectName id_ Hnb).
  rewrite (doRequest_unfold _ _ _ _ _ _ _ _ Hrq). cbn zeta.
  apply Z.eqb_neq in Hst. rewrite Hst. cbn [fst snd].
  rewrite (since_app w _ [Sent _; Received response]) by reflexivity.
  repeat split; reflexivity.
Qed.

(** ** Verbose mode *)

(** X14: with a debug level above 1 and a text that is not JSON, the header
    line is printed and the text counted before [ValueError] is raised;
    nothing else is printed. *)
Theorem verbose_invalid_json response cls w :
  1 < _debugLevel (self w) ->
  json_loads (text response) = None ->
  let r := _deserializeResponse response cls w in
  fst r = Raise ValueError
  /\ stdout (snd r) = stdout w ++ [u "json response:"]
  /\ getBytesRead (self (snd r))
     = getBytesRead (self w) + len (text response).
Proof.
  intros Hd Hjson r. unfold r.
  rewrite deserialize_result, (deserialize_verbose _ _ _ Hd).
  destruct (deserialize_world response cls w) as (Hs & _).
  rewrite Hs. unfold fromJsonString. rewrite Hjson.
  repeat split; reflexivity.
Qed.

(** ** Characters and bytes *)

Lemma utf8_encode_point_length (c : N) :
  (1 <= length (utf8_encode_point c))%nat
  /\ ((c < 128)%N -> length (utf8_encode_point c) = 1%nat).
Proof.
  unfold utf8_encode_point.
  destruct (N.ltb_spec c 128); [split; [cbn; lia|reflexivity]|].
  split; [|lia].
  destruct (c <? 2048)%N; [cbn; lia|].
  destruct (c <? 65536)%N; cbn; lia.
Qed.

Lemma utf8_encode_length (t : unicode) :
  (length t <= length (utf8_encode t))%nat
  /\ (Forall (fun c => (c < 128)%N) t ->
      length (utf8_encode t) = length t).
Proof.
  unfold utf8_encode. induction t as [|c t [IHle IHeq]].
  - split; [cbn; lia|reflexivity].
  - cbn [flat_map]. rewrite length_app. cbn [length].
    destruct (utf8_encode_point_length c) as [Hle Heq]. split; [lia|].
    intros Hall. inversion Hall as [|? ? Hc Ht]; subst.
    rewrite (Heq Hc), (IHeq Ht). reflexivity.
Qed.

(** X15: for a response whose body is the UTF-8 encoding of its text, the
    counter moves by at most the number of bytes of the body, and by
    exactly that number when the text is ASCII. *)
Theorem counter_at_most_body_bytes response cls w :
  content response = utf8_encode (text response) ->
  let w' := snd (_deserializeResponse response cls w) in
  getBytesRead (self w') - getBytesRead (self w)
    <= Z.of_nat (length (content response))
  /\ (Forall (fun c => (c < 128)%N) (text response) ->
      getBytesRead (self w')
      = getBytesRead (self w) + Z.of_nat (length (content response))).
Proof.
  intros Hbody w'. unfold w'.
  destruct (deserialize_world response cls w) as (Hs & _).
  rewrite Hs, Hbody.
  destruct (utf8_encode_length (text response)) as [Hle Heq].
  unfold getBytesRead, len. cbn [set_bytesRead _bytesRead]. split; [lia|].
  intros Hascii. rewrite (Heq Hascii). reflexivity.
Qed.

(** X16: over any stretch of a generator's run the counter grows by the [len]
    of the texts of the responses that arrived with status 200 in that
    stretch, and by nothing else; so it never goes down, and no step
    resets it. *)
Theorem counter_is_sum_of_counted_texts (g : loop) n f w :
  let w' := snd (steps g n f w) in
  getBytesRead (self w')
  = getBytesRead (self w) + counted (since w w')
  /\ getBytesRead (self w) <= getBytesRead (self w').
Proof.
  intros w'. unfold w'.
  destruct (steps_counts g n f w) as (es & Hh & Hb).
  rewrite (since_app _ _ _ Hh), Hb.
  pose proof (counted_nonneg es). split; [reflexivity|lia].
Qed.

End MoreFacts.

(** ** The further properties on the mock *)

Lemma request_fields_survive_a_search :
  let g := Mock.search Mock.twoPages in
  let w := with_protocolRequest
             (Mock.world Mock.twoPages (Mock.client 0 []))
             {[ "referenceName" := PyStr "chr1"; "pageToken" := PyNone ]} in
  "referenceName" <> "pageToken"
  /\ protocolRequest (snd (steps g 9 Created w)) !! "referenceName"
     = Some (PyStr "chr1").
Proof.
  intros g w.
  assert (Hk : "referenceName" <> "pageToken") by discriminate.
  split; [exact Hk|].
  exact (run_assigns_only_pageToken g 9 Created w "referenceName" Hk).
Defined.

Lemma token_abc_is_sent_next :
  let g := Mock.search Mock.twoPages in
  let w := Mock.world Mock.twoPages (Mock.client 0 []) in
  continuation Mock.object1 = Some (PyStr "abc")
  /\ sent (since w (snd (steps g 2 (Page Mock.searchUrl Mock.object1 []) w)))
     = [requestOf "POST" Mock.searchUrl (Mock.client 0 []) ∅
          (Some (Mock.show_token {[ "pageToken" := PyStr "abc" ]}))].
Proof.
  intros g w.
  assert (Hc : continuation Mock.object1 = Some (PyStr "abc"))
    by (vm_compute; reflexivity).
  split; [exact Hc|].
  exact (token_carried_into_next_request g Mock.searchUrl Mock.object1
           (PyStr "abc") w Hc).
Defined.



Lemma two_pages_are_listed :
  let g := Mock.listBases Mock.twoPages "7" in
  let w := Mock.world Mock.twoPages (Mock.client 0 []) in
  session g Mock.basesUrl (self w) (net w) (protocolRequest w)
    [Mock.listExchange1; Mock.listExchange2]
  /\ exists n w',
      steps g n Created w = (Finished, w')
      /\ yielded (since w w') = [PyObj Mock.object1; PyObj Mock.object2]
      /\ sent (since w w')
         = [ex_request Mock.listExchange1; ex_request Mock.listExchange2].
Proof.
  intros g w.
  assert (Hpages : session g Mock.basesUrl (self w) (net w)
                     (protocolRequest w)
                     [Mock.listExchange1; Mock.listExchange2]).
  { eapply (session_more g Mock.basesUrl (self w) (net w) (protocolRequest w)
              (Mock.twoPages 0) 1%nat Mock.object1 [PyObj Mock.object1]
              (PyStr "abc") [Mock.listExchange2]);
      [vm_compute; reflexivity..|].
    set (rq1 := <[ "pageToken" := PyStr "abc" ]> (protocolRequest w)).
    replace [Mock.listExchange2]
      with [ {| ex_request :=
                  requestOf (httpMethod g) Mock.basesUrl (self w)
                    (httpParams g rq1) (httpData g rq1);
                ex_response := Mock.twoPages 1;
                ex_items := [PyObj Mock.object2] |} ]
      by (vm_compute; reflexivity).
    apply (session_last g Mock.basesUrl (self w) 1%nat rq1
             (Mock.twoPages 1) 2%nat Mock.object2 [PyObj Mock.object2]);
      vm_compute; reflexivity. }
  split; [exact Hpages|].
  destruct (runListRequest_yields_each_page "references/{id}/bases"
              (Mock.anyObject Mock.twoPages Mock.bodies) "7" w Mock.basesUrl
              [Mock.listExchange1; Mock.listExchange2] eq_refl Hpages)
    as (n & w' & Hrun & _ & Hsent & Hyield & _).
  exists n, w'. repeat split; assumption.
Defined.

Lemma braces_in_the_identifier :
  let w := Mock.world Mock.twoPages (Mock.client 0 []) in
  nobrace (_urlPrefix (self w)) = true
  /\ steps (listReferenceBases (Mock.protocol Mock.twoPages) "{x}") 1
       Created w
     = (While "http://host/references/{x}/bases" true, w).
Proof.
  intros w.
  assert (Hnb : nobrace (_urlPrefix (self w)) = true) by reflexivity.
  split; [exact Hnb|].
  exact (listReferenceBases_url (Mock.protocol Mock.twoPages) "{x}" w Hnb).
Defined.

Lemma refused_search_is_finished :
  let g := Mock.search Mock.alwaysRefused in
  let w := Mock.world Mock.alwaysRefused (Mock.client 0 []) in
  let e := Exception "Url http://host/variants/search had status_code 500" in
  In (Raised e) (since w (snd (steps g 2 Created w)))
  /\ fst (steps g 2 Created w) = Finished
  /\ forall m, steps g (2 + m) Created w = steps g 2 Created w.
Proof.
  intros g w e.
  assert (Hin : In (Raised e) (since w (snd (steps g 2 Created w)))).
  { vm_compute. do 2 right. left. reflexivity. }
  split; [exact Hin|].
  exact (raised_means_finished g w 2 e Hin).
Defined.

Lemma refused_body_is_printed :
  let g := Mock.search Mock.refusedAfterOne in
  let w := Mock.world Mock.refusedAfterOne (Mock.client 1 []) in
  _debugLevel (self w) <= 1
  /\ stdout (snd (steps g 9 Created w))
     = stdout w ++ refused_bodies (since w (snd (steps g 9 Created w)))
  /\ refused_bodies (since w (snd (steps g 9 Created w)))
     = [u "Internal Server Error"].
Proof.
  intros g w.
  assert (Hd : _debugLevel (self w) <= 1) by (vm_compute; discriminate).
  split; [exact Hd|]. split.
  - exact (quiet_client_prints_refusals g 9 Created w Hd).
  - vm_compute. reflexivity.
Defined.

Lemma endless_server_never_ends :
  let g := Mock.search Mock.endless in
  let w := Mock.world Mock.endless (Mock.client 0 []) in
  makeUrl g (self w) = Ok Mock.searchUrl
  /\ forall n, fst (steps g n Created w) <> Finished.
Proof.
  intros g w.
  assert (Hurl : makeUrl g (self w) = Ok Mock.searchUrl)
    by (vm_compute; reflexivity).
  split; [exact Hurl|].
  apply (endless_tokens_never_finish g w Mock.searchUrl Hurl).
  intros s rq. exists (Mock.endless s), (S s).
  split; [reflexivity|vm_compute; reflexivity].
Defined.

Lemma reads_without_alignments :
  let g := Mock.searchReads Mock.twoPages in
  let w := Mock.world Mock.twoPages (Mock.client 0 []) in
  Mock.object1 !! "alignments" = None
  /\ exists w',
      step g (While "http://host/reads/search" true) w = (Finished, w')
      /\ history w'
         = history w
           ++ [Sent (outgoing g "http://host/reads/search" w);
               Received (Mock.twoPages 0);
               Raised (AttributeError "alignments")]
      /\ getBytesRead (self w')
         = getBytesRead (self w) + len (text (Mock.twoPages 0))
      /\ protocolRequest w' = protocolRequest w.
Proof.
  intros g w.
  assert (Hnone : Mock.object1 !! "alignments" = None)
    by (vm_compute; reflexivity).
  split; [exact Hnone|].
  apply (missing_list_field_raises "reads"
           (Mock.anyObject Mock.twoPages Mock.bodies) "alignments"
           "http://host/reads/search" w (Mock.twoPages 0) 1%nat Mock.object1);
    [vm_compute; reflexivity..|exact Hnone].
Defined.

Lemma refused_request_is_not_counted :
  let cls := Mock.anyObject Mock.alwaysRefused Mock.bodies in
  let w := Mock.world Mock.alwaysRefused (Mock.client 0 []) in
  let w' := snd (_doRequest "GET" "http://host/references/1" cls ∅ None w) in
  sent (since w w')
  = [requestOf "GET" "http://host/references/1" (self w) ∅ None]
  /\ getBytesRead (self w') = getBytesRead (self w) + 0.
Proof.
  intros cls w w'.
  exact (doRequest_counts "GET" "http://host/references/1" cls ∅ None w
           (Mock.alwaysRefused 0) 1%nat eq_refl).
Defined.

Lemma missing_reference_set :
  let cls := Mock.anyObject Mock.notFound Mock.bodies in
  let w := Mock.world Mock.notFound (Mock.client 0 []) in
  let r := runGetRequest "referencesets" cls "missing-id" w in
  fst r
  = Raise (Exception
             "Url http://host/referencesets/missing-id had status_code 404")
  /\ sent (since w (snd r))
     = [requestOf "GET" "http://host/referencesets/missing-id" (self w)
          ∅ None]
  /\ self (snd r) = self w
  /\ stdout (snd r) = stdout w ++ [u "Not Found"].
Proof.
  intros cls w r.
  apply (getter_refused "referencesets" cls "missing-id" w
           (Mock.notFound 0) 1%nat);
    [reflexivity|reflexivity|vm_compute; discriminate].
Defined.

Lemma verbose_garbled_body :
  let cls := Mock.anyObject Mock.garbled Mock.bodies in
  let w := Mock.world Mock.garbled (Mock.client 2 []) in
  let r := _deserializeResponse (Mock.garbled 0) cls w in
  1 < _debugLevel (self w)
  /\ fst r = Raise ValueError
  /\ stdout (snd r) = stdout w ++ [u "json response:"]
  /\ getBytesRead (self (snd r)) = getBytesRead (self w) + 6.
Proof.
  intros cls w r.
  assert (Hd : 1 < _debugLevel (self w)) by reflexivity.
  split; [exact Hd|].
  apply (verbose_invalid_json (Mock.garbled 0) cls w Hd).
  vm_compute. reflexivity.
Defined.

Lemma accented_body_is_undercounted :
  let cls := Mock.anyObject Mock.accented Mock.bodies in
  let w := Mock.world Mock.accented (Mock.client 0 []) in
  let w' := snd (_deserializeResponse (Mock.accented 0) cls w) in
  content (Mock.accented 0) = utf8_encode (text (Mock.accented 0))
  /\ getBytesRead (self w') - getBytesRead (self w) <= 6.
Proof.
  intros cls w w'.
  assert (Hbody : content (Mock.accented 0)
                  = utf8_encode (text (Mock.accented 0))) by reflexivity.
  split; [exact Hbody|].
  exact (proj1 (counter_at_most_body_bytes (Mock.accented 0) cls w Hbody)).
Defined.
